(** * NexusAgenticManager: the desktop client's state store and its handlers

    A shallow embedding of [desktop/src/store/nexusStore.ts] (the zustand
    store) and of the event handlers of the views that drive it
    ([ChatView]'s [ChatInput.submit], [ProjectsView], [TelegramView]'s
    polling loop and the toasts of [NotificationSystem]).

    Conventions.
    - A JavaScript string is modelled by the [string] of its UTF-8 bytes
      (an unpaired surrogate, which only [slice] can leave behind, is
      written as the three bytes of its code point); [===] and [!==] on
      strings are [String.eqb] and its negation (exact comparison).
      Lengths and positions of JavaScript strings count UTF-16 code
      units: a code point of one to three bytes is one unit, a code point
      of four bytes is two.
    - JavaScript numbers that hold counters, identifiers and timestamps
      are modelled as [Z] (they stay far below 2^53 where doubles are exact).
    - [crypto.randomUUID()] and [new Date()] are inputs supplied by the
      environment.
    - [T | null] and optional fields are [option T]. *)

From Stdlib Require Import List String Ascii ZArith Bool Lia.
Import ListNotations.
Open Scope string_scope.
Open Scope Z_scope.

(* ================================================================== *)
(** ** JavaScript helpers *)

Module Js.

(** [!x] for [x : string | null]: [null] and the empty string are falsy. *)
Definition falsy (x : option string) : bool :=
  match x with
  | None => true
  | Some s => String.eqb s ""
  end.

(** [a || b] for an optional string [a]. *)
Definition or_else (a : option string) (b : string) : string :=
  if falsy a then b else match a with Some s => s | None => b end.

(** The ASCII white space and line terminators that
    [String.prototype.trim] removes: TAB, LF, VT, FF, CR and SPACE. *)
Definition is_space (c : ascii) : bool :=
  let n := nat_of_ascii c in
  ((9 <=? n) && (n <=? 13))%nat || (n =? 32)%nat.

(** [c] is the byte [n]. *)
Definition is_byte (n : nat) (c : ascii) : bool := (nat_of_ascii c =? n)%nat.

(** The bytes of the other code points that [trim] removes, after their
    first byte: U+00A0 (C2 A0); U+1680 (E1 9A 80); U+2000 to U+200A,
    U+2028, U+2029 and U+202F (E2 80 80..8A, A8, A9, AF); U+205F
    (E2 81 9F); U+3000 (E3 80 80); U+FEFF (EF BB BF). *)
Definition space_tail (c : ascii) (rest : string) : option string :=
  match rest with
  | String d rest1 =>
      if is_byte 194 c then (if is_byte 160 d then Some rest1 else None)
      else
        match rest1 with
        | String e rest2 =>
            let ne := nat_of_ascii e in
            if is_byte 225 c
            then (if is_byte 154 d && is_byte 128 e then Some rest2 else None)
            else if is_byte 226 c
            then
              (if is_byte 128 d
               then (if ((128 <=? ne) && (ne <=? 138))%nat
                        || is_byte 168 e || is_byte 169 e || is_byte 175 e
                     then Some rest2 else None)
               else if is_byte 129 d && is_byte 159 e then Some rest2 else None)
            else if is_byte 227 c
            then (if is_byte 128 d && is_byte 128 e then Some rest2 else None)
            else if is_byte 239 c
            then (if is_byte 187 d && is_byte 191 e then Some rest2 else None)
            else None
        | EmptyString => None
        end
  | EmptyString => None
  end.

(** [s] without its first code point, when that code point is white space
    or a line terminator. *)
Definition strip_space (s : string) : option string :=
  match s with
  | String c rest => if is_space c then Some rest else space_tail c rest
  | EmptyString => None
  end.

(** At most [fuel] leading white-space code points are removed; the
    length of the string is always enough. *)
Fixpoint trim_start_upto (fuel : nat) (s : string) : string :=
  match fuel with
  | O => s
  | S fuel' =>
      match strip_space s with
      | Some rest => trim_start_upto fuel' rest
      | None => s
      end
  end.

Definition trim_start (s : string) : string := trim_start_upto (String.length s) s.

(** [s] holds nothing but white space. *)
Definition blank (s : string) : bool := String.eqb (trim_start s) "".

(** Drops the trailing white space: a byte is kept as long as what starts
    at it is not blank. *)
Fixpoint trim_end (s : string) : string :=
  match s with
  | EmptyString => EmptyString
  | String c rest => if blank s then EmptyString else String c (trim_end rest)
  end.

(** [s.trim()]. *)
Definition trim (s : string) : string := trim_end (trim_start s).

(** A continuation byte (10xxxxxx) and the first byte of a code point of
    four bytes (11110xxx). *)
Definition is_cont (c : ascii) : bool :=
  let n := nat_of_ascii c in ((128 <=? n) && (n <? 192))%nat.

Definition is_astral (c : ascii) : bool := (240 <=? nat_of_ascii c)%nat.

(** [s.length]: the number of UTF-16 code units. *)
Fixpoint units (s : string) : nat :=
  match s with
  | EmptyString => O
  | String c rest =>
      ((if is_cont c then 0 else if is_astral c then 2 else 1) + units rest)%nat
  end.

(** The high surrogate of the code point whose first three bytes are
    [b0 b1 b2], as the three bytes of its own code point. *)
Definition highSurrogate (b0 b1 b2 : ascii) : string :=
  let h := ((nat_of_ascii b0 mod 8) * 256 + (nat_of_ascii b1 mod 64) * 4
            + (nat_of_ascii b2 mod 64) / 16 - 64)%nat in
  String (ascii_of_nat 237)
    (String (ascii_of_nat (160 + h / 64))
       (String (ascii_of_nat (128 + h mod 64)) EmptyString)).

(** [s.slice(0, n)] for [n >= 0]: the first [n] UTF-16 code units.  When
    the cut falls inside a surrogate pair, its high surrogate is kept. *)
Fixpoint slice0 (n : nat) (s : string) : string :=
  match s with
  | EmptyString => EmptyString
  | String c rest =>
      if is_cont c then String c (slice0 n rest)
      else
        match n with
        | O => EmptyString
        | S O =>
            if is_astral c
            then match rest with
                 | String b1 (String b2 _) => highSurrogate c b1 b2
                 | _ => EmptyString
                 end
            else String c (slice0 O rest)
        | S (S m as n') =>
            if is_astral c then String c (slice0 m rest)
            else String c (slice0 n' rest)
        end
  end.

(** [xs.slice(0, n)] on arrays. *)
Definition slice {A} (n : nat) (xs : list A) : list A := firstn n xs.

End Js.

(* ================================================================== *)
(** ** The data model of [nexusStore.ts] *)

Inductive Agent := NEXUS | ATLAS | ORACLE | COMPASS | FORGE.

Module View.
Inductive t := chat | projects | research | career | code | settings | telegram.
End View.

Module Role.
Inductive t := user | assistant.
End Role.

Module NotifType.
Inductive t := info | success | warning | error | agent.
End NotifType.

Definition Agent_eqb (a b : Agent) : bool :=
  match a, b with
  | NEXUS, NEXUS | ATLAS, ATLAS | ORACLE, ORACLE
  | COMPASS, COMPASS | FORGE, FORGE => true
  | _, _ => false
  end.

Definition Agent_name (a : Agent) : string :=
  match a with
  | NEXUS => "NEXUS" | ATLAS => "ATLAS" | ORACLE => "ORACLE"
  | COMPASS => "COMPASS" | FORGE => "FORGE"
  end.

Module Message.
Record t := mk {
  id : string;
  role : Role.t;
  content : string;
  agent : Agent;
  timestamp : Z;
  isStreaming : option bool
}.

(** [Omit<Message, "id" | "timestamp">]. *)
Record input := mk_input {
  in_role : Role.t;
  in_content : string;
  in_agent : Agent;
  in_isStreaming : option bool
}.

(** [{ ...m, id: crypto.randomUUID(), timestamp: new Date() }]. *)
Definition create (m : input) (uuid : string) (now : Z) : t :=
  mk uuid (in_role m) (in_content m) (in_agent m) now (in_isStreaming m).

(** [{ ...m, content, isStreaming: false }]. *)
Definition finalize (m : t) (c : string) : t :=
  mk (id m) (role m) c (agent m) (timestamp m) (Some false).
End Message.

Module Notification.
(** The [action] callback is a closure; only its label is kept. *)
Record t := mk {
  id : string;
  type : NotifType.t;
  title : string;
  body : string;
  agent : option Agent;
  timestamp : Z;
  read : bool;
  action : option string
}.

(** [Omit<Notification, "id" | "timestamp" | "read">]. *)
Record input := mk_input {
  in_type : NotifType.t;
  in_title : string;
  in_body : string;
  in_agent : option Agent;
  in_action : option string
}.

(** [{ ...n, id: crypto.randomUUID(), timestamp: new Date(), read: false }]. *)
Definition create (n : input) (uuid : string) (now : Z) : t :=
  mk uuid (in_type n) (in_title n) (in_body n) (in_agent n) now false (in_action n).

(** [{ ...n, read: true }]. *)
Definition mark_read (n : t) : t :=
  mk (id n) (type n) (title n) (body n) (agent n) (timestamp n) true (action n).

Definition unread (n : t) : bool := negb (read n).
End Notification.

Module Project.
(** The projects view addresses projects by the backend's [_id]. *)
Record t := mk {
  _id : string;
  name : string;
  description : string;
  status : string;
  github_repo : string
}.
End Project.

Module Task.
Record t := mk {
  id : string;
  project_id : string;
  title : string;
  status : string;
  priority : string;
  description : option string
}.

(** [{ ...t, status: newStatus }]. *)
Definition with_status (t0 : t) (newStatus : string) : t :=
  mk (id t0) (project_id t0) (title t0) newStatus (priority t0) (description t0).
End Task.

Record AgentStatus := {
  as_name : Agent;
  as_online : bool;
  as_lastActive : option Z
}.

Record Settings := {
  telegramToken : string;
  telegramChatId : string;
  githubToken : string;
  notionKey : string;
  ollamaModel : string;
  morningTime : string;
  eveningTime : string;
  notifSound : bool;
  notifDesktop : bool
}.

Record NexusState := mkState {
  messages : list Message.t;
  sessionId : option string;
  currentView : View.t;
  isLoading : bool;
  backendUrl : string;
  notifications : list Notification.t;
  unreadCount : Z;
  showNotifPanel : bool;
  projects : list Project.t;
  tasks : list Task.t;
  activeProjectId : option string;
  agentStatuses : list AgentStatus;
  ollamaOnline : bool;
  telegramConnected : bool;
  commandBarOpen : bool;
  settings : Settings
}.

(** The state the store is created with. *)
Definition initialState : NexusState := {|
  messages := [];
  sessionId := None;
  currentView := View.chat;
  isLoading := false;
  backendUrl := "http://localhost:8000";
  notifications := [];
  unreadCount := 0;
  showNotifPanel := false;
  projects := [];
  tasks := [];
  activeProjectId := None;
  agentStatuses :=
    [ {| as_name := ATLAS; as_online := true; as_lastActive := None |};
      {| as_name := ORACLE; as_online := true; as_lastActive := None |};
      {| as_name := COMPASS; as_online := true; as_lastActive := None |};
      {| as_name := FORGE; as_online := true; as_lastActive := None |} ];
  ollamaOnline := false;
  telegramConnected := false;
  commandBarOpen := false;
  settings := {|
    telegramToken := "";
    telegramChatId := "";
    githubToken := "";
    notionKey := "";
    ollamaModel := "llama3.1:8b";
    morningTime := "09:00";
    eveningTime := "18:30";
    notifSound := true;
    notifDesktop := true |}
|}.

(** *** Partial updates: zustand's [set] merges the returned fields *)

Definition set_messages (v : list Message.t) (s : NexusState) : NexusState :=
  mkState v (sessionId s) (currentView s) (isLoading s) (backendUrl s)
    (notifications s) (unreadCount s) (showNotifPanel s) (projects s) (tasks s)
    (activeProjectId s) (agentStatuses s) (ollamaOnline s) (telegramConnected s)
    (commandBarOpen s) (settings s).

Definition set_sessionId (v : option string) (s : NexusState) : NexusState :=
  mkState (messages s) v (currentView s) (isLoading s) (backendUrl s)
    (notifications s) (unreadCount s) (showNotifPanel s) (projects s) (tasks s)
    (activeProjectId s) (agentStatuses s) (ollamaOnline s) (telegramConnected s)
    (commandBarOpen s) (settings s).

Definition set_isLoading (v : bool) (s : NexusState) : NexusState :=
  mkState (messages s) (sessionId s) (currentView s) v (backendUrl s)
    (notifications s) (unreadCount s) (showNotifPanel s) (projects s) (tasks s)
    (activeProjectId s) (agentStatuses s) (ollamaOnline s) (telegramConnected s)
    (commandBarOpen s) (settings s).

Definition set_notifications (v : list Notification.t) (c : Z) (s : NexusState)
  : NexusState :=
  mkState (messages s) (sessionId s) (currentView s) (isLoading s) (backendUrl s)
    v c (showNotifPanel s) (projects s) (tasks s)
    (activeProjectId s) (agentStatuses s) (ollamaOnline s) (telegramConnected s)
    (commandBarOpen s) (settings s).

Definition set_projects (v : list Project.t) (s : NexusState) : NexusState :=
  mkState (messages s) (sessionId s) (currentView s) (isLoading s) (backendUrl s)
    (notifications s) (unreadCount s) (showNotifPanel s) v (tasks s)
    (activeProjectId s) (agentStatuses s) (ollamaOnline s) (telegramConnected s)
    (commandBarOpen s) (settings s).

Definition set_tasks (v : list Task.t) (s : NexusState) : NexusState :=
  mkState (messages s) (sessionId s) (currentView s) (isLoading s) (backendUrl s)
    (notifications s) (unreadCount s) (showNotifPanel s) (projects s) v
    (activeProjectId s) (agentStatuses s) (ollamaOnline s) (telegramConnected s)
    (commandBarOpen s) (settings s).

Definition set_activeProjectId (v : option string) (s : NexusState) : NexusState :=
  mkState (messages s) (sessionId s) (currentView s) (isLoading s) (backendUrl s)
    (notifications s) (unreadCount s) (showNotifPanel s) (projects s) (tasks s)
    v (agentStatuses s) (ollamaOnline s) (telegramConnected s)
    (commandBarOpen s) (settings s).

(** *** The store's actions *)

Definition addMessage (m : Message.input) (uuid : string) (now : Z)
  : NexusState -> NexusState :=
  fun s => set_messages (messages s ++ [Message.create m uuid now]) s.

(** [msgs[msgs.length - 1] = { ...msgs[msgs.length - 1], content, isStreaming: false }]
    on a copy of the array, guarded by [msgs.length > 0]. *)
Fixpoint replace_last (c : string) (msgs : list Message.t) : list Message.t :=
  match msgs with
  | [] => []
  | [m] => [Message.finalize m c]
  | m :: rest => m :: replace_last c rest
  end.

Definition updateLastMessage (c : string) : NexusState -> NexusState :=
  fun s => set_messages (replace_last c (messages s)) s.

Definition setLoading (v : bool) : NexusState -> NexusState := set_isLoading v.

Definition setSessionId (i : string) : NexusState -> NexusState :=
  set_sessionId (Some i).

Definition clearChat : NexusState -> NexusState :=
  fun s => set_sessionId None (set_messages [] s).

(** The cap of [pushNotification]'s [.slice(0, 50)]. *)
Definition NOTIFICATION_CAP : nat := 50.

Definition pushNotification (n : Notification.input) (uuid : string) (now : Z)
  : NexusState -> NexusState :=
  fun s =>
    let notif := Notification.create n uuid now in
    set_notifications
      (Js.slice NOTIFICATION_CAP (notif :: notifications s))
      (unreadCount s + 1) s.

(** The operating-system notification [pushNotification] raises after the
    store update, when the preference is on, the browser has the
    [Notification] API and permission was granted: its title and body. *)
Definition desktopNotification (hasApi granted : bool) (n : Notification.input)
  (s : NexusState) : option (string * string) :=
  if notifDesktop (settings s) && hasApi && granted
  then Some ("NEXUS — " ++ Notification.in_title n, Notification.in_body n)
  else None.

Definition markAllRead : NexusState -> NexusState :=
  fun s => set_notifications (map Notification.mark_read (notifications s)) 0 s.

Definition dismissNotification (i : string) : NexusState -> NexusState :=
  fun s =>
    set_notifications
      (filter (fun n => negb (String.eqb (Notification.id n) i)) (notifications s))
      (Z.of_nat (List.length
         (filter (fun n => negb (Notification.read n)
                           && negb (String.eqb (Notification.id n) i))
                 (notifications s))))
      s.

Definition setProjects (p : list Project.t) : NexusState -> NexusState := set_projects p.
Definition setTasks (t : list Task.t) : NexusState -> NexusState := set_tasks t.
Definition setActiveProject (i : option string) : NexusState -> NexusState :=
  set_activeProjectId i.

(** The number of entries whose [read] flag is false, as the notification
    panel displays it. *)
Definition unreadEntries (ns : list Notification.t) : Z :=
  Z.of_nat (List.length (filter Notification.unread ns)).

(* ================================================================== *)
(** ** Remote collaborators

    The functions of [lib/api] and the two [fetch] calls of the views are
    the only suspension points of the handlers.  A request is a value; the
    type of what it resolves to depends on the request. *)

Module ChatData.
(** What [sendChat] resolves to. *)
Record t := mk {
  response : string;
  agent : Agent;
  session_id : string
}.
End ChatData.

Module TgUpdate.
(** One element of the [result] array of the bot API's [getUpdates];
    [u.message?.from?.first_name], [u.message?.text] and [u.message?.date]
    are flattened into optional fields. *)
Record t := mk {
  update_id : Z;
  first_name : option string;
  text : option string;
  date : option Z
}.
End TgUpdate.

Module TgData.
(** The JSON body of a [getUpdates] reply. *)
Record t := mk {
  ok : bool;
  result : list TgUpdate.t
}.
End TgData.

Inductive Request :=
| getProjects
| getTasks (pid : string)
| updateTaskStatus (taskId newStatus : string)
| deleteProject (pid : string)
| fetchDebugProject
| sendChat (message : string) (session : option string)
| getUpdates (token : string) (offset : Z).

(** [fetchDebugProject] is [fetch("/api/projects/debug/test_project")]; it
    resolves to the HTTP status of the reply. *)
Definition Response (r : Request) : Type :=
  match r with
  | getProjects => list Project.t
  | getTasks _ => list Task.t
  | updateTaskStatus _ _ => unit
  | deleteProject _ => unit
  | fetchDebugProject => Z
  | sendChat _ _ => ChatData.t
  | getUpdates _ _ => TgData.t
  end.

(** A settled promise. *)
Inductive Settled (A : Type) :=
| Resolved (a : A)
| Rejected.
Arguments Resolved {A} a.
Arguments Rejected {A}.

(** The environment of a run: how the [n]-th remote call settles, and the
    values [crypto.randomUUID()] and [new Date()] yield at their [n]-th use. *)
Record World := {
  answer : nat -> forall r : Request, Settled (Response r);
  uuid : nat -> string;
  clock : nat -> Z
}.

(* ================================================================== *)
(** ** Asynchronous handlers

    The body of an [async] arrow function over a component state [St]:
    straight-line state updates, [await]s and [try]/[catch]/[finally]
    blocks, in continuation-passing form. *)

Module Async.

Section Proc.
Context {St : Type}.

Inductive Proc : Type :=
| Skip                                           (* end of the block *)
| Return                                         (* [return] *)
| Update (f : St -> St) (k : Proc)               (* a [set...] call *)
| Read (k : St -> Proc)                          (* reading the live state *)
| Fresh (k : string -> Z -> Proc)                (* randomUUID() and new Date() *)
| Await (r : Request) (k : Response r -> Proc)   (* [await r]; rejection throws *)
| Try (body handler finalizer : Proc) (k : Proc) (* try/catch/finally; then k *)
| Invoke (callee : Proc) (k : Proc).             (* [await callee()]; then k *)

(** How a block completes. *)
Inductive Completion := Normal | Returned | Thrown.

(** The state of a run: the component state, the remote calls made so far
    (each with the component state at the moment the handler suspended on
    it) and the number of fresh values drawn. *)
Record Run := mkRun {
  state : St;
  calls : list (Request * St);
  drawn : nat
}.

Definition start (s : St) : Run := mkRun s [] 0%nat.

Fixpoint exec (w : World) (p : Proc) (r : Run) : Run * Completion :=
  match p with
  | Skip => (r, Normal)
  | Return => (r, Returned)
  | Update f k => exec w k (mkRun (f (state r)) (calls r) (drawn r))
  | Read k => exec w (k (state r)) r
  | Fresh k =>
      exec w (k (uuid w (drawn r)) (clock w (drawn r)))
           (mkRun (state r) (calls r) (S (drawn r)))
  | Await q k =>
      let r' := mkRun (state r) (calls r ++ [(q, state r)]) (drawn r) in
      match answer w (List.length (calls r)) q with
      | Resolved a => exec w (k a) r'
      | Rejected => (r', Thrown)
      end
  | Try body handler finalizer k =>
      let '(r1, c1) := exec w body r in
      let '(r2, c2) :=
        match c1 with
        | Thrown => exec w handler r1
        | _ => (r1, c1)
        end in
      let '(r3, c3) := exec w finalizer r2 in
      let c := match c3 with Normal => c2 | _ => c3 end in
      match c with
      | Normal => exec w k r3
      | _ => (r3, c)
      end
  | Invoke callee k =>
      let '(r1, c1) := exec w callee r in
      match c1 with
      | Thrown => (r1, Thrown)
      | _ => exec w k r1
      end
  end.

(** The requests of a run, in the order they were made. *)
Definition requests (r : Run) : list Request := map fst (calls r).

End Proc.
Arguments Proc St : clear implicits.
Arguments Run St : clear implicits.

End Async.
Import Async.

(* ================================================================== *)
(** ** [ChatInput] of the chat view *)

Module ChatInput.

(** The store together with the component's [useState] cell. *)
Record State := mkSt {
  store : NexusState;
  value : string
}.

Definition onStore (f : NexusState -> NexusState) (s : State) : State :=
  mkSt (f (store s)) (value s).

Definition setValue (v : string) (s : State) : State := mkSt (store s) v.

(** The text the [catch] branch writes into the placeholder. *)
Definition OFFLINE_NOTICE : string :=
  "⚠️ Backend offline. Run: `uvicorn api.main:app --reload` in /backend".

(** [data.response.slice(0, 80) + (data.response.length > 80 ? "…" : "")]. *)
Definition preview (text : string) : string :=
  Js.slice0 80 text ++ (if (80 <? Js.units text)%nat then "…" else "").

(** [submit], as bound by the render that saw the state [r]: [value],
    [isLoading] and [sessionId] are the values of that render. *)
Definition submit (r : State) (overrideMsg : option string) : Proc State :=
  let msg := Js.trim (Js.or_else overrideMsg (value r)) in
  if String.eqb msg "" || isLoading (store r) then Return
  else
    Update (setValue "")
   (Fresh (fun u1 t1 =>
    Update (onStore (addMessage (Message.mk_input Role.user msg NEXUS None) u1 t1))
   (Fresh (fun u2 t2 =>
    Update (onStore (addMessage
                       (Message.mk_input Role.assistant "" NEXUS (Some true)) u2 t2))
   (Update (onStore (setLoading true))
   (Try
      (* try *)
      (Await (sendChat msg (sessionId (store r))) (fun data =>
       (if Js.falsy (sessionId (store r))
        then Update (onStore (setSessionId (ChatData.session_id data)))
        else fun k => k)
       (Update (onStore (updateLastMessage (ChatData.response data)))
       (if Agent_eqb (ChatData.agent data) NEXUS then Skip
        else
          Fresh (fun u3 t3 =>
          Update (onStore (pushNotification
                    (Notification.mk_input NotifType.agent
                       (Agent_name (ChatData.agent data) ++ " responded")
                       (preview (ChatData.response data))
                       (Some (ChatData.agent data)) None) u3 t3))
          Skip)))))
      (* catch *)
      (Update (onStore (updateLastMessage OFFLINE_NOTICE)) Skip)
      (* finally *)
      (Update (onStore (setLoading false)) Skip)
      Skip)))))).

End ChatInput.

(* ================================================================== *)
(** ** [ProjectsView] *)

Module ProjectsView.

(** The store together with the component's [useState] cells the modelled
    handlers touch. *)
Record State := mkSt {
  store : NexusState;
  loading : bool;
  showDeleteProject : bool;
  deleteConfirmationName : string;
  dragging : option string
}.

Definition onStore (f : NexusState -> NexusState) (s : State) : State :=
  mkSt (f (store s)) (loading s) (showDeleteProject s)
       (deleteConfirmationName s) (dragging s).

Definition setLoading (v : bool) (s : State) : State :=
  mkSt (store s) v (showDeleteProject s) (deleteConfirmationName s) (dragging s).

Definition setShowDeleteProject (v : bool) (s : State) : State :=
  mkSt (store s) (loading s) v (deleteConfirmationName s) (dragging s).

Definition setDeleteConfirmationName (v : string) (s : State) : State :=
  mkSt (store s) (loading s) (showDeleteProject s) v (dragging s).

Definition setDragging (v : option string) (s : State) : State :=
  mkSt (store s) (loading s) (showDeleteProject s) (deleteConfirmationName s) v.

(** [pushNotification({ type, title, body })] followed by [k]. *)
Definition notify (ty : NotifType.t) (title body : string) (ag : option Agent)
  (k : Proc State) : Proc State :=
  Fresh (fun u t =>
  Update (onStore (pushNotification (Notification.mk_input ty title body ag None) u t))
  k).

(** [p._id === activeProjectId]. *)
Definition is_active (active : option string) (p : Project.t) : bool :=
  match active with
  | Some a => String.eqb (Project._id p) a
  | None => false
  end.

(** [projects.find((p) => p._id === activeProjectId)]. *)
Definition activeProject (r : State) : option Project.t :=
  find (is_active (activeProjectId (store r))) (projects (store r)).

Definition loadProjects (r : State) : Proc State :=
  Update (setLoading true)
 (Try
    (Await getProjects (fun data =>
     Update (onStore (setProjects data))
    (match data with
     | p :: _ =>
         if Js.falsy (activeProjectId (store r))
         then Update (onStore (setActiveProject (Some (Project._id p)))) Skip
         else Skip
     | [] => Skip
     end)))
    (notify NotifType.error "Projects Error" "Could not load projects" None Skip)
    (Update (setLoading false) Skip)
    Skip).


(** [tasks.map((t) => (t.id === taskId ? { ...t, status: newStatus } : t))]. *)
Definition restatus (taskId newStatus : string) (ts : list Task.t) : list Task.t :=
  map (fun t => if String.eqb (Task.id t) taskId
                then Task.with_status t newStatus else t) ts.

(** [tasks] is the array of the render [r] that bound the handler. *)
Definition handleStatusChange (r : State) (taskId newStatus : string) : Proc State :=
  Try
    (Await (updateTaskStatus taskId newStatus) (fun _ =>
     Update (onStore (setTasks (restatus taskId newStatus (tasks (store r))))) Skip))
    Skip
    Skip
    Skip.

(** The [onDrop] handler of the column whose key is [colKey]. *)
Definition onDrop (r : State) (colKey : string) : Proc State :=
  match dragging r with
  | Some d => Invoke (handleStatusChange r d colKey) (Update (setDragging None) Skip)
  | None => Skip
  end.

(** [projects.filter((p) => p._id !== activeProjectId)]. *)
Definition others (active : option string) (ps : list Project.t) : list Project.t :=
  filter (fun p => negb (is_active active p)) ps.

Definition handleDeleteProject (r : State) : Proc State :=
  match activeProjectId (store r) with
  | None => Return
  | Some pid =>
    if String.eqb pid "" then Return else
    match activeProject r with
    | None => Return
    | Some projectToDelete =>
      if negb (String.eqb (deleteConfirmationName r) (Project.name projectToDelete))
      then notify NotifType.error "Validation Error" "Project name mismatch" None Return
      else
        Try
          (Await fetchDebugProject (fun status =>
           if status =? 404
           then notify NotifType.error "BACKEND RESTART REQUIRED"
                  "The server is running old code. Please restart 'uvicorn' in your terminal."
                  None Return
           else Skip))
          Skip
          Skip
       (Try
          (Await (deleteProject pid) (fun _ =>
           Update (onStore (setProjects (others (Some pid) (projects (store r)))))
          (Update (setShowDeleteProject false)
          (Update (setDeleteConfirmationName "")
          (Update (onStore (setActiveProject
                     (match others (Some pid) (projects (store r)) with
                      | p :: _ => Some (Project._id p)
                      | [] => None
                      end)))
          (notify NotifType.success "Project Deleted" (Project.name projectToDelete)
                  None Skip))))))
          (notify NotifType.error "Error" "Could not delete project" None Skip)
          Skip
          Skip)
    end
  end.

(** The [disabled] attribute of the DELETE PROJECT button; the modal that
    holds it is rendered when [showDeleteProject && activeProject]. *)
Definition deleteButtonDisabled (r : State) : option bool :=
  match activeProject r with
  | Some p =>
      if showDeleteProject r
      then Some (negb (String.eqb (deleteConfirmationName r) (Project.name p)))
      else None
  | None => None
  end.

End ProjectsView.

(* ================================================================== *)
(** ** [TelegramView]: the polling loop *)

Module TelegramMessage.
Record t := mk {
  id : Z;
  from : string;
  text : string;
  timestamp : Z;
  isBot : bool
}.
End TelegramMessage.

Module TelegramView.

(** The store, the component's [messages] cell, and the variable [offset]
    that [startPolling] declares and the interval callback closes over. *)
Record State := mkSt {
  store : NexusState;
  messages : list TelegramMessage.t;
  pollActive : bool;
  offset : Z
}.

Definition onStore (f : NexusState -> NexusState) (s : State) : State :=
  mkSt (f (store s)) (messages s) (pollActive s) (offset s).

Definition setOffset (v : Z) (s : State) : State :=
  mkSt (store s) (messages s) (pollActive s) v.

(** [setMessages((prev) => [...prev, ...newMsgs])]. *)
Definition appendMessages (newMsgs : list TelegramMessage.t) (s : State) : State :=
  mkSt (store s) (messages s ++ newMsgs) (pollActive s) (offset s).

(** [startPolling]: [setPollActive(true); let offset = 0;] and the interval
    is installed. *)
Definition startPolling (s : State) : State :=
  mkSt (store s) (messages s) true 0.

(** The object the [map] callback returns for an update. *)
Definition toMessage (u : TgUpdate.t) : TelegramMessage.t :=
  TelegramMessage.mk
    (TgUpdate.update_id u)
    (Js.or_else (TgUpdate.first_name u) "User")
    (Js.or_else (TgUpdate.text u) "")
    ((match TgUpdate.date u with Some d => d | None => 0 end) * 1000)
    false.

(** The effect of the [map] callback on [offset], update after update:
    [offset = Math.max(offset, u.update_id + 1)]. *)
Definition advance (us : list TgUpdate.t) (o : Z) : Z :=
  fold_left (fun acc u => Z.max acc (TgUpdate.update_id u + 1)) us o.

(** [.filter((m) => m.text)]. *)
Definition withText (ms : list TelegramMessage.t) : list TelegramMessage.t :=
  filter (fun m => negb (String.eqb (TelegramMessage.text m) "")) ms.

(** [newMsgs.forEach((m) => pushNotification({...}))]. *)
Fixpoint notifyEach (ms : list TelegramMessage.t) (k : Proc State) : Proc State :=
  match ms with
  | [] => k
  | m :: rest =>
      Fresh (fun u t =>
      Update (onStore (pushNotification
                (Notification.mk_input NotifType.info
                   ("Telegram: " ++ TelegramMessage.from m)
                   (Js.slice0 80 (TelegramMessage.text m)) None None) u t))
      (notifyEach rest k))
  end.

(** What the callback does with the parsed reply, after its two [await]s:
    the lines from [if (data.ok && ...)] to the end of the [try] block.
    They run without interruption. *)
Definition ingest (data : TgData.t) : Proc State :=
  if TgData.ok data && (0 <? List.length (TgData.result data))%nat
  then
    Update (fun s' => setOffset (advance (TgData.result data) (offset s')) s')
   (match withText (map toMessage (TgData.result data)) with
    | [] => Skip
    | newMsgs => Update (appendMessages newMsgs) (notifyEach newMsgs Skip)
    end)
  else Skip.

(** One firing of the interval callback, run to its end; [token] is
    [settings.telegramToken] of the render that started the polling. *)
Definition tick (token : string) : Proc State :=
  Try
    (Read (fun s => Await (getUpdates token (offset s)) ingest))
    Skip
    Skip
    Skip.

End TelegramView.

(* ================================================================== *)
(** ** [TelegramView]: the polling loop over time

    [setInterval] starts the callback every 3000 ms whether or not the
    earlier firing has returned, and a request ([timeout=5]) can stay open
    longer than that: several requests can be in flight, and their replies
    arrive in any order.  A run of the loop is a sequence of events. *)

Module TelegramLoop.
Import TelegramView.

(** A request in flight: the offset it sent, and whether the loop that
    sent it is still the installed one ([startPolling] clears the interval
    of the earlier loop, not its open requests). *)
Record Flight := mkFlight {
  live : bool;
  sent : Z
}.

(** The component, the token the installed callback closes over, and the
    requests in flight, oldest first.  [offset] of the component state is
    the variable of the latest [startPolling] call; [pollActive] is true
    exactly when an interval is installed. *)
Record Loop := mkLoop {
  run : Run State;
  token : string;
  pending : list Flight
}.

Inductive Event :=
| Starts (tok : string)                          (* [startPolling()] is called *)
| Fires                                          (* the interval fires: a request is sent *)
| Arrives (i : nat) (reply : Settled TgData.t).  (* the [i]-th request in flight settles *)


(** [xs] without its [i]-th entry. *)
Definition without {A : Type} (i : nat) (xs : list A) : list A :=
  (firstn i xs ++ skipn (S i) xs)%list.

Definition retire (f : Flight) : Flight := mkFlight false (sent f).

(** The rest of a firing once its request has settled.  A rejection is
    caught silently.  The callback of an earlier loop still appends and
    notifies, but the [offset] it writes is the variable of its own
    [startPolling] call, which nothing reads any more: the variable of the
    installed loop keeps its value. *)
Definition settle (f : Flight) (reply : Settled TgData.t) : Proc State :=
  match reply with
  | Rejected => Skip
  | Resolved data =>
      if live f then ingest data
      else Read (fun s0 => Invoke (ingest data) (Update (setOffset (offset s0)) Skip))
  end.

Definition step (w : World) (l : Loop) (e : Event) : Loop :=
  match e with
  | Starts tok =>
      mkLoop (mkRun (startPolling (state (run l))) (calls (run l)) (drawn (run l)))
             tok (map retire (pending l))
  | Fires =>
      if pollActive (state (run l))
      then
        let o := offset (state (run l)) in
        mkLoop (mkRun (state (run l))
                      (calls (run l) ++ [(getUpdates (token l) o, state (run l))])
                      (drawn (run l)))
               (token l) (pending l ++ [mkFlight true o])
      else l
  | Arrives i reply =>
      match nth_error (pending l) i with
      | Some f =>
          mkLoop (fst (exec w (settle f reply) (run l))) (token l)
                 (without i (pending l))
      | None => l
      end
  end.

Definition after (w : World) (es : list Event) (l : Loop) : Loop :=
  fold_left (step w) es l.

(** The updates of a reply that the callback reads: none unless the call
    resolved with [ok] and a non-empty [result]. *)
Definition batch (reply : Settled TgData.t) : list TgUpdate.t :=
  match reply with
  | Resolved d =>
      if TgData.ok d && (0 <? List.length (TgData.result d))%nat
      then TgData.result d else []
  | Rejected => []
  end.





End TelegramLoop.

(* ================================================================== *)
(** ** [NotificationSystem]: toasts *)

Module Toast.

(** [notifications.filter((n) => !n.read).slice(0, 4)] of [ToastContainer]. *)
Definition recent (s : NexusState) : list Notification.t :=
  Js.slice 4 (filter Notification.unread (notifications s)).

(** A mounted [Toast] for the notification [notif]: the store, its
    [exiting] cell and the number of [setTimeout(onDismiss, 250)] timers
    that are pending. *)
Record State := mkSt {
  store : NexusState;
  exiting : bool;
  pendingDismiss : nat
}.

Definition mount (s : NexusState) : State := mkSt s false 0%nat.

Inductive Event :=
| TimerElapsed   (* the 5000 ms timer of the effect fires *)
| CloseClicked   (* the user clicks the close button *)
| GraceElapsed.  (* a 250 ms timer fires *)

(** [onDismiss] as [ToastContainer] passes it: [() => dismissNotification(n.id)]. *)
Definition onDismiss (notif : Notification.t) : NexusState -> NexusState :=
  dismissNotification (Notification.id notif).

Definition step (notif : Notification.t) (e : Event) (t : State) : State :=
  match e with
  | TimerElapsed | CloseClicked =>
      (* setExiting(true); setTimeout(onDismiss, 250) *)
      mkSt (store t) true (S (pendingDismiss t))
  | GraceElapsed =>
      match pendingDismiss t with
      | O => t
      | S p => mkSt (onDismiss notif (store t)) (exiting t) p
      end
  end.


End Toast.

(* ================================================================== *)
(** ** Sequences of notification operations *)

Inductive NotifOp :=
| Push (n : Notification.input) (uuid : string) (now : Z)
| MarkAllRead
| Dismiss (i : string).

Definition applyOp (s : NexusState) (op : NotifOp) : NexusState :=
  match op with
  | Push n u t => pushNotification n u t s
  | MarkAllRead => markAllRead s
  | Dismiss i => dismissNotification i s
  end.

Definition applyOps (ops : list NotifOp) (s : NexusState) : NexusState :=
  fold_left applyOp ops s.

(** A run of [pushNotification] calls, oldest call first. *)
Definition pushAll (ps : list (Notification.input * string * Z)) (s : NexusState)
  : NexusState :=
  fold_left (fun acc '(n, u, t) => pushNotification n u t acc) ps s.

(** The entries a run of pushes creates, oldest first. *)
Definition created (ps : list (Notification.input * string * Z))
  : list Notification.t :=
  map (fun '(n, u, t) => Notification.create n u t) ps.

(** Sample data. *)
Definition sampleInput (k : nat) : Notification.input :=
  Notification.mk_input NotifType.info "Build" "finished" None None.

Definition sampleId (k : nat) : string :=
  String (ascii_of_nat (48 + k / 10)) (String (ascii_of_nat (48 + k mod 10)) "").

(** [k] pushes with the identifiers "00", "01", ... *)
Definition samplePushes (k : nat) : list NotifOp :=
  map (fun i => Push (sampleInput i) (sampleId i) (Z.of_nat i)) (seq 0 k).

Definition after51 : NexusState := applyOps (samplePushes 51) initialState.

Definition after3 : NexusState := applyOps (samplePushes 3) initialState.

Definition sampleTriples (k : nat) : list (Notification.input * string * Z) :=
  map (fun i => (sampleInput i, sampleId i, Z.of_nat i)) (seq 0 k).

(* ================================================================== *)
(** ** Sample environments and renders *)

Module Sample.

Definition apollo : Project.t := Project.mk "p1" "Apollo " "lunar" "active" "".
Definition gemini : Project.t := Project.mk "p2" "Gemini" "twin" "active" "".

Definition t1 : Task.t := Task.mk "t1" "p1" "Write docs" "todo" "medium" None.
Definition t2 : Task.t := Task.mk "t2" "p1" "Ship" "in_progress" "high" None.

Definition upd (i : Z) (txt : string) : TgUpdate.t :=
  TgUpdate.mk i (Some "Ann") (Some txt) (Some 1700000000).

(** The updates the bot service holds. *)
Definition queue : list TgUpdate.t := [upd 5 "five"; upd 7 "seven"; upd 6 "six"].

(** Every remote call is rejected. *)
Definition offline : World := {|
  answer := fun _ _ => Rejected;
  uuid := sampleId;
  clock := Z.of_nat
|}.

(** Every remote call resolves; [getUpdates] returns the queued updates
    from the requested offset on. *)
Definition online : World := {|
  answer := fun _ r =>
    match r return Settled (Response r) with
    | getProjects => Resolved [apollo; gemini]
    | getTasks _ => Resolved [t1; t2]
    | updateTaskStatus _ _ => Resolved tt
    | deleteProject _ => Resolved tt
    | fetchDebugProject => Resolved 200
    | sendChat m _ => Resolved (ChatData.mk ("echo " ++ m) ATLAS "sess-1")
    | getUpdates _ o =>
        Resolved (TgData.mk true
                    (filter (fun u => o <=? TgUpdate.update_id u) queue))
    end;
  uuid := sampleId;
  clock := Z.of_nat
|}.

(** The backend answers with an empty project list. *)
Definition emptyBackend : World := {|
  answer := fun _ r =>
    match r return Settled (Response r) with
    | getProjects => Resolved []
    | _ => Rejected
    end;
  uuid := sampleId;
  clock := Z.of_nat
|}.

(** A board showing project "Apollo " with two tasks. *)
Definition boardStore : NexusState :=
  setTasks [t1; t2] (setActiveProject (Some "p1") (setProjects [apollo; gemini] initialState)).

Definition board : ProjectsView.State :=
  ProjectsView.mkSt boardStore false false "" None.


(** The delete dialog is open and "Apollo", without the trailing space of
    the project's name, has been typed. *)
Definition boardTypedTrimmed : ProjectsView.State :=
  ProjectsView.mkSt boardStore false true "Apollo" None.

(** The delete dialog is open and the exact name has been typed. *)
Definition boardTypedExact : ProjectsView.State :=
  ProjectsView.mkSt boardStore false true "Apollo " None.

(** The projects view on its first render. *)
Definition firstRender : ProjectsView.State :=
  ProjectsView.mkSt initialState false false "" None.

(** The chat input holding "hello". *)
Definition typedHello : ChatInput.State := ChatInput.mkSt initialState "hello".


End Sample.

Module SampleChat.

Definition m1 : Message.t := Message.mk "00" Role.user "hello" NEXUS 0 None.
Definition m2 : Message.t := Message.mk "01" Role.assistant "" NEXUS 1 (Some true).

(** A conversation waiting for its reply. *)
Definition waiting : NexusState := set_messages [m1; m2] initialState.

End SampleChat.

(* ================================================================== *)
(** * The rest of the store and of the views *)

From Stdlib Require Import DecimalString Permutation.

(** ** More string helpers *)

Module JsText.

(** The decimal digits a template literal prints for an integer. *)
Definition show (n : Z) : string := NilZero.string_of_int (Z.to_int n).

(** The UTF-16 code units of a string, which [includes] compares: a
    code point of up to three bytes is one unit, a code point of four
    bytes is a surrogate pair. *)
Fixpoint codeUnits (s : string) : list N :=
  match s with
  | EmptyString => []
  | String a r1 =>
      let na := N_of_ascii a in
      if (na <? 128)%N then na :: codeUnits r1
      else if (na <? 224)%N then
        match r1 with
        | String b r2 => ((na mod 32) * 64 + N_of_ascii b mod 64)%N :: codeUnits r2
        | EmptyString => []
        end
      else if (na <? 240)%N then
        match r1 with
        | String b (String c r3) =>
            ((na mod 16) * 4096 + (N_of_ascii b mod 64) * 64 + N_of_ascii c mod 64)%N
            :: codeUnits r3
        | _ => []
        end
      else
        match r1 with
        | String b (String c (String d r4)) =>
            let cp := ((na mod 8) * 262144 + (N_of_ascii b mod 64) * 4096
                       + (N_of_ascii c mod 64) * 64 + N_of_ascii d mod 64 - 65536)%N in
            (55296 + cp / 1024)%N :: (56320 + cp mod 1024)%N :: codeUnits r4
        | _ => []
        end
  end.

(** [p] is the beginning of [s], and [p] occurs somewhere in [s], on
    sequences of code units. *)
Fixpoint startsWithUnits (p s : list N) : bool :=
  match p, s with
  | [], _ => true
  | a :: p', b :: s' => (a =? b)%N && startsWithUnits p' s'
  | _ :: _, [] => false
  end.

Fixpoint includesUnits (p s : list N) : bool :=
  startsWithUnits p s ||
  match s with
  | [] => false
  | _ :: rest => includesUnits p rest
  end.

(** [s.startsWith(p)]. *)
Definition startsWith (p s : string) : bool :=
  startsWithUnits (codeUnits p) (codeUnits s).

(** [s.includes(p)]: [p] occurs somewhere in [s]. *)
Definition includes (p s : string) : bool :=
  includesUnits (codeUnits p) (codeUnits s).

(** The low surrogate of the code point whose last two bytes are
    [b2 b3], as the three bytes of its own code point. *)
Definition lowSurrogate (b2 b3 : ascii) : string :=
  let l := ((nat_of_ascii b2 mod 16) * 64 + nat_of_ascii b3 mod 64)%nat in
  String (ascii_of_nat 237)
    (String (ascii_of_nat (176 + l / 64))
       (String (ascii_of_nat (128 + l mod 64)) EmptyString)).

(** [s.slice(n)] for [n >= 0]: [s] without its first [n] UTF-16 code
    units.  When the cut falls inside a surrogate pair, its low surrogate
    is kept. *)
Fixpoint drop (n : nat) (s : string) : string :=
  match s with
  | EmptyString => EmptyString
  | String c rest =>
      if Js.is_cont c then drop n rest
      else
        match n with
        | O => s
        | S O =>
            if Js.is_astral c
            then match rest with
                 | String _ (String b2 (String b3 _)) =>
                     lowSurrogate b2 b3 ++ drop O rest
                 | _ => EmptyString
                 end
            else drop O rest
        | S (S m as n') =>
            if Js.is_astral c then drop m rest else drop n' rest
        end
  end.

End JsText.

(** ** The remaining store actions *)

Definition set_currentView (v : View.t) (s : NexusState) : NexusState :=
  mkState (messages s) (sessionId s) v (isLoading s) (backendUrl s)
    (notifications s) (unreadCount s) (showNotifPanel s) (projects s) (tasks s)
    (activeProjectId s) (agentStatuses s) (ollamaOnline s) (telegramConnected s)
    (commandBarOpen s) (settings s).

Definition set_showNotifPanel (v : bool) (s : NexusState) : NexusState :=
  mkState (messages s) (sessionId s) (currentView s) (isLoading s) (backendUrl s)
    (notifications s) (unreadCount s) v (projects s) (tasks s)
    (activeProjectId s) (agentStatuses s) (ollamaOnline s) (telegramConnected s)
    (commandBarOpen s) (settings s).

Definition set_ollamaOnline (v : bool) (s : NexusState) : NexusState :=
  mkState (messages s) (sessionId s) (currentView s) (isLoading s) (backendUrl s)
    (notifications s) (unreadCount s) (showNotifPanel s) (projects s) (tasks s)
    (activeProjectId s) (agentStatuses s) v (telegramConnected s)
    (commandBarOpen s) (settings s).

Definition set_telegramConnected (v : bool) (s : NexusState) : NexusState :=
  mkState (messages s) (sessionId s) (currentView s) (isLoading s) (backendUrl s)
    (notifications s) (unreadCount s) (showNotifPanel s) (projects s) (tasks s)
    (activeProjectId s) (agentStatuses s) (ollamaOnline s) v
    (commandBarOpen s) (settings s).

Definition set_commandBarOpen (v : bool) (s : NexusState) : NexusState :=
  mkState (messages s) (sessionId s) (currentView s) (isLoading s) (backendUrl s)
    (notifications s) (unreadCount s) (showNotifPanel s) (projects s) (tasks s)
    (activeProjectId s) (agentStatuses s) (ollamaOnline s) (telegramConnected s)
    v (settings s).

Definition set_settings (v : Settings) (s : NexusState) : NexusState :=
  mkState (messages s) (sessionId s) (currentView s) (isLoading s) (backendUrl s)
    (notifications s) (unreadCount s) (showNotifPanel s) (projects s) (tasks s)
    (activeProjectId s) (agentStatuses s) (ollamaOnline s) (telegramConnected s)
    (commandBarOpen s) v.

Definition setView (v : View.t) : NexusState -> NexusState := set_currentView v.

Definition toggleNotifPanel : NexusState -> NexusState :=
  fun s => set_showNotifPanel (negb (showNotifPanel s)) s.

Definition setOllamaOnline (v : bool) : NexusState -> NexusState := set_ollamaOnline v.

Definition setTelegramConnected (v : bool) : NexusState -> NexusState :=
  set_telegramConnected v.

Definition toggleCommandBar : NexusState -> NexusState :=
  fun s => set_commandBarOpen (negb (commandBarOpen s)) s.

Module SettingsPatch.
(** [Partial<NexusState["settings"]>]: [None] is a key the object lacks. *)
Record t := mk {
  telegramToken : option string;
  telegramChatId : option string;
  githubToken : option string;
  notionKey : option string;
  ollamaModel : option string;
  morningTime : option string;
  eveningTime : option string;
  notifSound : option bool;
  notifDesktop : option bool
}.

Definition empty : t := mk None None None None None None None None None.

(** The value of a key of [{ ...a, ...b }]. *)
Definition pick {A} (patch : option A) (old : A) : A :=
  match patch with
  | Some v => v
  | None => old
  end.

(** The key of [{ ...p, ...q }] for two patches. *)
Definition later {A} (p q : option A) : option A :=
  match q with
  | Some v => Some v
  | None => p
  end.

(** [{ ...p, ...q }]. *)
Definition overlay (p q : t) : t :=
  mk (later (telegramToken p) (telegramToken q))
     (later (telegramChatId p) (telegramChatId q))
     (later (githubToken p) (githubToken q))
     (later (notionKey p) (notionKey q))
     (later (ollamaModel p) (ollamaModel q))
     (later (morningTime p) (morningTime q))
     (later (eveningTime p) (eveningTime q))
     (later (notifSound p) (notifSound q))
     (later (notifDesktop p) (notifDesktop q)).
End SettingsPatch.

(** [{ ...st.settings, ...s }]. *)
Definition mergeSettings (old : Settings) (p : SettingsPatch.t) : Settings := {|
  telegramToken := SettingsPatch.pick (SettingsPatch.telegramToken p) (telegramToken old);
  telegramChatId := SettingsPatch.pick (SettingsPatch.telegramChatId p) (telegramChatId old);
  githubToken := SettingsPatch.pick (SettingsPatch.githubToken p) (githubToken old);
  notionKey := SettingsPatch.pick (SettingsPatch.notionKey p) (notionKey old);
  ollamaModel := SettingsPatch.pick (SettingsPatch.ollamaModel p) (ollamaModel old);
  morningTime := SettingsPatch.pick (SettingsPatch.morningTime p) (morningTime old);
  eveningTime := SettingsPatch.pick (SettingsPatch.eveningTime p) (eveningTime old);
  notifSound := SettingsPatch.pick (SettingsPatch.notifSound p) (notifSound old);
  notifDesktop := SettingsPatch.pick (SettingsPatch.notifDesktop p) (notifDesktop old)
|}.

Definition updateSettings (p : SettingsPatch.t) : NexusState -> NexusState :=
  fun s => set_settings (mergeSettings (settings s) p) s.

(** The bound the operations keep: the counter is at least the number of
    unread entries, and the list is within the cap. *)
Definition counted (s : NexusState) : Prop :=
  unreadEntries (notifications s) <= unreadCount s /\
  (List.length (notifications s) <= 50)%nat.

(** The states the store reaches from its initial state by notification
    operations. *)
Definition reached (ops : list NotifOp) : NexusState := applyOps ops initialState.

(* ================================================================== *)
(** ** [Sidebar]: the bell's badge *)

Module Sidebar.

(** [unreadCount > 0 && (unreadCount > 9 ? "9+" : unreadCount)]: the text
    of the badge, [None] when no badge is rendered. *)
Definition badge (unreadCount : Z) : option string :=
  if 0 <? unreadCount
  then Some (if 9 <? unreadCount then "9+" else JsText.show unreadCount)
  else None.

End Sidebar.

(* ================================================================== *)
(** ** [NotificationPanel] *)

Module NotificationPanel.

(** [timeAgo(date)] with [Date.now()] passed in; both are milliseconds. *)
Definition timeAgo (now date : Z) : string :=
  let secs := (now - date) / 1000 in
  if secs <? 60 then "just now"
  else if secs <? 3600 then JsText.show (secs / 60) ++ "m ago"
  else if secs <? 86400 then JsText.show (secs / 3600) ++ "h ago"
  else JsText.show (secs / 86400) ++ "d ago".

(** The header's [notifications.filter((n) => !n.read).length]. *)
Definition unreadShown (s : NexusState) : Z := unreadEntries (notifications s).

End NotificationPanel.

(* ================================================================== *)
(** ** The life of a mounted toast *)

Module ToastLife.

(** The events that start an exit: the 5 s timer and the close button. *)
Definition startsExit (e : Toast.Event) : bool :=
  match e with
  | Toast.TimerElapsed | Toast.CloseClicked => true
  | Toast.GraceElapsed => false
  end.

(** The toast for [notif] after the events [es], oldest first. *)
Definition after (notif : Notification.t) (es : list Toast.Event) (t : Toast.State)
  : Toast.State :=
  fold_left (fun acc e => Toast.step notif e acc) es t.

End ToastLife.

(* ================================================================== *)
(** ** [ProjectsView]: the board's columns *)

Module Board.

(** The [key]s of [STATUS_COLS], in the order of the columns. *)
Definition STATUS_KEYS : list string := ["todo"; "in_progress"; "blocked"; "done"].

(** [tasksByStatus(status)] over the task list [ts]. *)
Definition tasksByStatus (ts : list Task.t) (status : string) : list Task.t :=
  filter (fun t => String.eqb (Task.status t) status) ts.

(** What the board renders: one column per key, with its tasks. *)
Definition columns (ts : list Task.t) : list (string * list Task.t) :=
  map (fun k => (k, tasksByStatus ts k)) STATUS_KEYS.

(** The tasks the board shows, column after column. *)
Definition shown (ts : list Task.t) : list Task.t :=
  List.concat (map snd (columns ts)).

(** [status] is the key of a column. *)
Definition hasColumn (t : Task.t) : bool :=
  existsb (String.eqb (Task.status t)) STATUS_KEYS.

End Board.

(* ================================================================== *)
(** ** [CommandBar] *)

Module CommandBar.

(** The store together with the component's [query] cell. *)
Record State := mkSt {
  store : NexusState;
  query : string
}.

Definition onStore (f : NexusState -> NexusState) (s : State) : State :=
  mkSt (f (store s)) (query s).

(** The text [quickAsk] writes when the call fails. *)
Definition OFFLINE_NOTICE : string := "⚠️ Backend offline".

(** [quickAsk(msg)], as bound by the render [r]; the body of its 200 ms
    timer runs right after the two synchronous calls. *)
Definition quickAsk (r : State) (msg : string) : Proc State :=
  Update (onStore toggleCommandBar)
 (Update (onStore (setView View.chat))
 (Fresh (fun u1 t1 =>
  Update (onStore (addMessage (Message.mk_input Role.user msg NEXUS None) u1 t1))
 (Fresh (fun u2 t2 =>
  Update (onStore (addMessage
                     (Message.mk_input Role.assistant "" NEXUS (Some true)) u2 t2))
 (Update (onStore (setLoading true))
 (Try
    (Await (sendChat msg (sessionId (store r))) (fun data =>
     (if Js.falsy (sessionId (store r))
      then Update (onStore (setSessionId (ChatData.session_id data)))
      else fun k => k)
     (Update (onStore (updateLastMessage (ChatData.response data))) Skip)))
    (Update (onStore (updateLastMessage OFFLINE_NOTICE)) Skip)
    (Update (onStore (setLoading false)) Skip)
    Skip))))))).

Record Command := mkCommand {
  id : string;
  label : string;
  category : string;
  keywords : list string;
  action : Proc State
}.

(** [() => { setView(v); toggleCommandBar(); }]. *)
Definition navigate (v : View.t) : Proc State :=
  Update (onStore (setView v)) (Update (onStore toggleCommandBar) Skip).

(** The action of "clear-chat". *)
Definition clearChatAction : Proc State :=
  Update (onStore clearChat)
 (Update (onStore toggleCommandBar)
 (Fresh (fun u t =>
  Update (onStore (pushNotification
            (Notification.mk_input NotifType.info "Chat Cleared"
               "Conversation history reset" None None) u t))
  Skip))).

Definition COMMANDS (r : State) : list Command := [
  mkCommand "chat" "Open Chat" "Navigate" ["chat"; "talk"; "message"]
    (navigate View.chat);
  mkCommand "projects" "Open Projects" "Navigate" ["project"; "kanban"; "task"]
    (navigate View.projects);
  mkCommand "research" "Open Research" "Navigate" ["research"; "knowledge"; "oracle"]
    (navigate View.research);
  mkCommand "career" "Open Career" "Navigate" ["career"; "compass"; "job"]
    (navigate View.career);
  mkCommand "code" "Open Code" "Navigate" ["code"; "forge"; "debug"]
    (navigate View.code);
  mkCommand "telegram" "Open Telegram" "Navigate" ["telegram"; "bot"; "mobile"]
    (navigate View.telegram);
  mkCommand "settings" "Open Settings" "Navigate" ["settings"; "config"]
    (navigate View.settings);
  mkCommand "brief" "Morning Briefing (ATLAS)" "Agent" ["brief"; "morning"; "atlas"]
    (quickAsk r "Give me my morning briefing");
  mkCommand "focus" "What to focus on now" "Agent" ["focus"; "priority"; "now"]
    (quickAsk r "What single thing should I focus on right now?");
  mkCommand "skill-gap" "Skill Gap Analysis" "Agent" ["skill"; "gap"; "career"]
    (quickAsk r "Analyze my skill gap for Senior ML Engineer");
  mkCommand "github-sync" "Sync GitHub Issues" "Agent" ["github"; "sync"; "issues"]
    (quickAsk r "sync github and show open issues");
  mkCommand "review" "Code Review Mode" "Agent" ["review"; "code"; "forge"]
    (quickAsk r "I need a code review");
  mkCommand "research-q" "Search Knowledge Base" "Agent" ["search"; "knowledge"; "oracle"]
    (quickAsk r "Search my knowledge base for:");
  mkCommand "clear-chat" "Clear Chat History" "System" ["clear"; "reset"; "history"]
    clearChatAction
].

(** One step of the [reduce] that builds [grouped]: the command joins the
    array of its category, a new key being added after the existing ones. *)
Fixpoint addTo (acc : list (string * list Command)) (cmd : Command)
  : list (string * list Command) :=
  match acc with
  | [] => [(category cmd, [cmd])]
  | (k, cs) :: rest =>
      if String.eqb k (category cmd)
      then (k, (cs ++ [cmd])%list) :: rest
      else (k, cs) :: addTo rest cmd
  end.

(** [Object.entries(grouped)]: the categories in the order of their
    first command. *)
Definition groupBy (cmds : list Command) : list (string * list Command) :=
  fold_left addTo cmds [].

(** [cmd.category === k]. *)
Definition inCategory (k : string) (c : Command) : bool :=
  String.eqb (category c) k.

(** What the groups built from the commands [done] satisfy: distinct keys,
    each group the non-empty list of the commands of its category, every
    command's category present. *)
Definition groupsOf (done : list Command) (acc : list (string * list Command)) : Prop :=
  NoDup (map fst acc) /\
  (forall k cs, In (k, cs) acc -> cs <> [] /\ cs = filter (inCategory k) done) /\
  (forall c, In c done -> In (category c) (map fst acc)).

Section Filtering.

(** [String.prototype.toLowerCase], whose table of case mappings is the
    engine's: the palette is described for any such function. *)
Variable toLowerCase : string -> string.

(** The predicate of [COMMANDS.filter(...)]. *)
Definition matches (q : string) (c : Command) : bool :=
  JsText.includes (toLowerCase q) (toLowerCase (label c))
  || existsb (fun k => JsText.includes (toLowerCase q) k) (keywords c).

(** [filtered]: every command when the trimmed query is empty. *)
Definition filtered (r : State) : list Command :=
  if String.eqb (Js.trim (query r)) "" then COMMANDS r
  else filter (matches (query r)) (COMMANDS r).

Definition grouped (r : State) : list (string * list Command) :=
  groupBy (filtered r).

(** The [onKeyDown] handler of the input, for the Enter key. *)
Definition onEnter (r : State) : Proc State :=
  match filtered r with
  | c :: _ => action c
  | [] => Skip
  end.

End Filtering.

End CommandBar.

(* ================================================================== *)
(** ** The first [ChatInput] (without the placeholder message) *)

Module ChatInputV1.

Definition OFFLINE_NOTICE : string :=
  "⚠️ Backend offline. Make sure `uvicorn api.main:app --reload` is running.".

Definition submit (r : ChatInput.State) : Proc ChatInput.State :=
  let msg := Js.trim (ChatInput.value r) in
  if String.eqb msg "" || isLoading (ChatInput.store r) then Return
  else
    Update (ChatInput.setValue "")
   (Fresh (fun u1 t1 =>
    Update (ChatInput.onStore
              (addMessage (Message.mk_input Role.user msg NEXUS None) u1 t1))
   (Update (ChatInput.onStore (setLoading true))
   (Try
      (Await (sendChat msg (sessionId (ChatInput.store r))) (fun data =>
       (if Js.falsy (sessionId (ChatInput.store r))
        then Update (ChatInput.onStore (setSessionId (ChatData.session_id data)))
        else fun k => k)
       (Fresh (fun u2 t2 =>
        Update (ChatInput.onStore
                  (addMessage
                     (Message.mk_input Role.assistant (ChatData.response data)
                        (ChatData.agent data) None) u2 t2))
        Skip))))
      (Fresh (fun u2 t2 =>
       Update (ChatInput.onStore
                 (addMessage
                    (Message.mk_input Role.assistant OFFLINE_NOTICE NEXUS None) u2 t2))
       Skip))
      (Update (ChatInput.onStore (setLoading false)) Skip)
      Skip)))).

End ChatInputV1.

(* ================================================================== *)
(** ** Handlers over the other remote calls

    The same handler language as [Async], for any family of requests:
    the calls of [lib/api] and the [fetch]es that the handlers below
    use. *)

Module Handler.

Section Sig.
Context {Rq : Type} {Rs : Rq -> Type} {St : Type}.

(** How the [n]-th call settles, and the fresh values. *)
Record Env := mkEnv {
  settle : nat -> forall q : Rq, Settled (Rs q);
  newId : nat -> string;
  now : nat -> Z
}.

Inductive Proc : Type :=
| Skip
| Return
| Update (f : St -> St) (k : Proc)
| Fresh (k : string -> Z -> Proc)
| Await (q : Rq) (k : Rs q -> Proc)
| Try (body handler finalizer : Proc) (k : Proc).

Record Run := mkRun {
  state : St;
  calls : list (Rq * St);
  drawn : nat
}.

Definition start (s : St) : Run := mkRun s [] 0%nat.

Fixpoint exec (w : Env) (p : Proc) (r : Run) : Run * Completion :=
  match p with
  | Skip => (r, Normal)
  | Return => (r, Returned)
  | Update f k => exec w k (mkRun (f (state r)) (calls r) (drawn r))
  | Fresh k =>
      exec w (k (newId w (drawn r)) (now w (drawn r)))
           (mkRun (state r) (calls r) (S (drawn r)))
  | Await q k =>
      let r' := mkRun (state r) (calls r ++ [(q, state r)]) (drawn r) in
      match settle w (List.length (calls r)) q with
      | Resolved a => exec w (k a) r'
      | Rejected => (r', Thrown)
      end
  | Try body handler finalizer k =>
      let '(r1, c1) := exec w body r in
      let '(r2, c2) :=
        match c1 with
        | Thrown => exec w handler r1
        | _ => (r1, c1)
        end in
      let '(r3, c3) := exec w finalizer r2 in
      let c := match c3 with Normal => c2 | _ => c3 end in
      match c with
      | Normal => exec w k r3
      | _ => (r3, c)
      end
  end.

Definition requests (r : Run) : list Rq := map fst (calls r).

End Sig.
Arguments Env Rq Rs : clear implicits.
Arguments Proc Rq Rs St : clear implicits.
Arguments Run Rq St : clear implicits.

End Handler.

Module Backend.

(** [newProject] of the projects view. *)
Record ProjectDraft := mkProjectDraft {
  name : string;
  description : string;
  github_repo : string
}.

(** [newTask] of the projects view. *)
Record TaskDraft := mkTaskDraft {
  title : string;
  task_description : string;
  priority : string
}.

(** The JSON body of the bot API's [getMe]. *)
Record BotReply := mkBotReply {
  ok : bool;
  username : string;
  first_name : string
}.

Inductive Request :=
| createProject (d : ProjectDraft)
| createTask (project_id : string) (d : TaskDraft)
| getMe (token : string)
| sendTelegramMessage (token chatId text : string)
| checkHealth.

(** [checkHealth] resolves to the [ollama] field of the health report. *)
Definition Response (q : Request) : Type :=
  match q with
  | createProject _ => Project.t
  | createTask _ _ => Task.t
  | getMe _ => BotReply
  | sendTelegramMessage _ _ _ => unit
  | checkHealth => string
  end.

Definition Env := Handler.Env Request Response.
Definition Proc (St : Type) := Handler.Proc Request Response St.
Definition Run (St : Type) := Handler.Run Request St.

End Backend.

(* ================================================================== *)
(** ** [ProjectsView]: the creation dialogs *)

Module ProjectsForms.
Import Handler.

Record State := mkSt {
  store : NexusState;
  newProject : Backend.ProjectDraft;
  showNewProject : bool;
  newTask : Backend.TaskDraft;
  showNewTask : bool
}.

Definition onStore (f : NexusState -> NexusState) (s : State) : State :=
  mkSt (f (store s)) (newProject s) (showNewProject s) (newTask s) (showNewTask s).





Definition notify (ty : NotifType.t) (title body : string) (ag : option Agent)
  (k : Backend.Proc State) : Backend.Proc State :=
  Fresh (fun u t =>
  Update (onStore (pushNotification (Notification.mk_input ty title body ag None) u t))
  k).



End ProjectsForms.

(* ================================================================== *)
(** ** [TelegramView]: connecting and sending *)

Module TelegramPanel.
Import Handler.

(** The polling state of [TelegramView] together with the cells
    [composing], [isConnecting] and [botInfo]. *)
Record State := mkSt {
  view : TelegramView.State;
  composing : string;
  isConnecting : bool;
  botInfo : option (string * string)
}.

Definition onView (f : TelegramView.State -> TelegramView.State) (s : State) : State :=
  mkSt (f (view s)) (composing s) (isConnecting s) (botInfo s).

Definition onStore (f : NexusState -> NexusState) : State -> State :=
  onView (TelegramView.onStore f).

Definition setComposing (v : string) (s : State) : State :=
  mkSt (view s) v (isConnecting s) (botInfo s).

Definition setIsConnecting (v : bool) (s : State) : State :=
  mkSt (view s) (composing s) v (botInfo s).

Definition setBotInfo (v : option (string * string)) (s : State) : State :=
  mkSt (view s) (composing s) (isConnecting s) v.

Definition notify (ty : NotifType.t) (title body : string)
  (k : Backend.Proc State) : Backend.Proc State :=
  Fresh (fun u t =>
  Update (onStore (pushNotification (Notification.mk_input ty title body None None) u t))
  k).

Definition token (r : State) : string :=
  telegramToken (settings (TelegramView.store (view r))).

Definition chatId (r : State) : string :=
  telegramChatId (settings (TelegramView.store (view r))).

Definition connectBot (r : State) : Backend.Proc State :=
  if String.eqb (token r) "" then Return
  else
    Update (setIsConnecting true)
   (Try
      (Await (Backend.getMe (token r)) (fun data =>
       if Backend.ok data
       then
         Update (setBotInfo (Some (Backend.username data, Backend.first_name data)))
        (Update (onStore (setTelegramConnected true))
        (notify NotifType.success "Telegram Connected"
           ("Bot @" ++ Backend.username data ++ " is online")
        (Update (onView TelegramView.startPolling) Skip)))
       else notify NotifType.error "Telegram Error" "Invalid bot token" Skip))
      (notify NotifType.error "Telegram Error" "Could not connect to Telegram API" Skip)
      (Update (setIsConnecting false) Skip)
      Skip).

(** [sendMsg(text?)]; [Date.now()] and [new Date()] are two readings of
    the clock. *)
Definition sendMsg (r : State) (text : option string) : Backend.Proc State :=
  let msg := Js.or_else text (Js.trim (composing r)) in
  if String.eqb msg "" || String.eqb (token r) "" || String.eqb (chatId r) ""
  then Return
  else
    Update (setComposing "")
   (Fresh (fun _ t1 =>
    Fresh (fun _ t2 =>
    Update (onView (TelegramView.appendMessages
                      [TelegramMessage.mk t1 "NEXUS Bot" msg t2 true]))
   (Try
      (Await (Backend.sendTelegramMessage (token r) (chatId r) msg) (fun _ => Skip))
      (notify NotifType.error "Send Failed" "Could not send Telegram message" Skip)
      Skip
      Skip)))).

End TelegramPanel.

(* ================================================================== *)
(** ** [App]: the health poll *)

Module App.
Import Handler.

(** [poll] of the health effect, fired at start and every 15 s. *)
Definition poll : Backend.Proc NexusState :=
  Try
    (Await Backend.checkHealth (fun ollama =>
     Update (setOllamaOnline (String.eqb ollama "connected")) Skip))
    (Update (setOllamaOnline false) Skip)
    Skip
    Skip.

End App.

(* ================================================================== *)
(** ** [ChatView]: [renderContent] *)

Module ChatView.

Definition LF : ascii := ascii_of_nat 10.

(** [text.split("\n")]. *)
Fixpoint splitLines (s : string) : list string :=
  match s with
  | EmptyString => [EmptyString]
  | String c rest =>
      if Ascii.eqb c LF then EmptyString :: splitLines rest
      else
        match splitLines rest with
        | l :: ls => String c l :: ls
        | [] => [String c EmptyString]
        end
  end.

(** [codeLines.join("\n")]. *)
Definition joinLines (ls : list string) : string :=
  String.concat (String LF EmptyString) ls.

(** The elements [renderContent] produces (their [key]s and styles are
    left out). *)
Inductive Element :=
| CodeBlock (lang : string) (code : string)
| Heading2 (text : string)
| Heading3 (text : string)
| Bullet (text : string)
| Divider
| Paragraph (html : string)
| Spacer.

(** [line.startsWith("```")]. *)
Definition isFence (line : string) : bool := JsText.startsWith "```" line.

Section Inline.

(** The two uses of [String.prototype.replace] with regular expressions:
    [s.replace(/\*\*(.*?)\*\*/g, "")] for bullets, and the pair of
    replacements that turns bold and back-quoted spans of a paragraph into
    HTML. *)
Variable stripBold : string -> string.
Variable formatInline : string -> string.

(** The branches of the loop body for a line outside a code block. *)
Definition renderLine (line : string) : Element :=
  if JsText.startsWith "## " line then Heading2 (JsText.drop 3 line)
  else if JsText.startsWith "### " line then Heading3 (JsText.drop 4 line)
  else if JsText.startsWith "- " line || JsText.startsWith "* " line
       then Bullet (Js.trim (stripBold (JsText.drop 2 line)))
  else if String.eqb (Js.trim line) "---" then Divider
  else if negb (String.eqb (Js.trim line) "") then Paragraph (formatInline line)
  else Spacer.

(** The two nested loops as one pass over the lines: [block] is the
    language and the lines read so far of the code block the inner loop is
    in, if any. *)
Fixpoint scan (lines : list string) (block : option (string * list string))
  : list Element :=
  match lines, block with
  | [], None => []
  | [], Some (lang, code) => [CodeBlock lang (joinLines code)]
  | l :: rest, None =>
      if isFence l then scan rest (Some (Js.trim (JsText.drop 3 l), []))
      else renderLine l :: scan rest None
  | l :: rest, Some (lang, code) =>
      if isFence l then CodeBlock lang (joinLines code) :: scan rest None
      else scan rest (Some (lang, (code ++ [l])%list))
  end.

(** [renderContent(text)]; [None] is [null]. *)
Definition renderContent (text : string) : option (list Element) :=
  if String.eqb text "" then None else Some (scan (splitLines text) None).

End Inline.

End ChatView.

(* ================================================================== *)
(** ** More sample environments and renders *)

Module Sample2.

(** The backend answers every call. *)
Definition up : Backend.Env := {|
  Handler.settle := fun _ q =>
    match q return Settled (Backend.Response q) with
    | Backend.createProject d =>
        Resolved (Project.mk "p9" (Backend.name d) (Backend.description d) "active"
                    (Backend.github_repo d))
    | Backend.createTask pid d =>
        Resolved (Task.mk "t9" pid (Backend.title d) "todo" (Backend.priority d)
                    (Some (Backend.task_description d)))
    | Backend.getMe _ => Resolved (Backend.mkBotReply true "nexus_bot" "Nexus")
    | Backend.sendTelegramMessage _ _ _ => Resolved tt
    | Backend.checkHealth => Resolved "connected"
    end;
  Handler.newId := sampleId;
  Handler.now := Z.of_nat
|}.

(** Every call is rejected. *)
Definition down : Backend.Env := {|
  Handler.settle := fun _ _ => Rejected;
  Handler.newId := sampleId;
  Handler.now := Z.of_nat
|}.

(** The debug probe answers 404. *)
Definition staleBackend : World := {|
  answer := fun _ r =>
    match r return Settled (Response r) with
    | fetchDebugProject => Resolved 404
    | _ => Rejected
    end;
  uuid := sampleId;
  clock := Z.of_nat
|}.



Definition botSettings : SettingsPatch.t :=
  SettingsPatch.mk (Some "123:abc") (Some "42") None None None None None None None.

(** The telegram view with a token and a chat id, "ping" typed. *)
Definition panel : TelegramPanel.State :=
  TelegramPanel.mkSt
    (TelegramView.mkSt (updateSettings botSettings initialState) [] false 7)
    " ping " false None.

(** The telegram view without a token. *)
Definition panelNoToken : TelegramPanel.State :=
  TelegramPanel.mkSt (TelegramView.mkSt initialState [] false 0) "ping" false None.

(** A board with a task whose status has no column. *)
Definition t3 : Task.t := Task.mk "t3" "p1" "Old" "archived" "low" None.

(** The palette with a blank query and with a query nothing matches. *)
Definition paletteBlank : CommandBar.State := CommandBar.mkSt initialState "  ".
Definition paletteNoMatch : CommandBar.State := CommandBar.mkSt initialState "zzz".

(** A string given by its bytes. *)
Definition bytes (l : list nat) : string :=
  string_of_list_ascii (map ascii_of_nat l).

(** NO-BREAK SPACE (U+00A0), IDEOGRAPHIC SPACE (U+3000), LINE SEPARATOR
    (U+2028), ZERO WIDTH SPACE (U+200B, not white space), the letter
    U+00E9 and the emoji U+1F600. *)
Definition nbsp : string := bytes [194; 160]%nat.
Definition ideographicSpace : string := bytes [227; 128; 128]%nat.
Definition lineSeparator : string := bytes [226; 128; 168]%nat.
Definition zeroWidthSpace : string := bytes [226; 128; 139]%nat.
Definition eAcute : string := bytes [195; 169]%nat.
Definition grin : string := bytes [240; 159; 152; 128]%nat.

(** [k] copies of [s]. *)
Definition copies (k : nat) (s : string) : string :=
  String.concat "" (repeat s k).

(** A query made of two NO-BREAK SPACEs. *)
Definition paletteNbsp : CommandBar.State := CommandBar.mkSt initialState (nbsp ++ nbsp).

(** A case mapping for the samples, whose text is ASCII: the letters A to
    Z become a to z, as [toLowerCase] maps them, and every other byte is
    kept. *)
Definition lowerAscii (s : string) : string :=
  string_of_list_ascii
    (map (fun c =>
            let n := nat_of_ascii c in
            if ((65 <=? n) && (n <=? 90))%nat then ascii_of_nat (n + 32) else c)
         (list_ascii_of_string s)).

Definition paletteForge : CommandBar.State := CommandBar.mkSt initialState "FORGE".

(** The store with one project selected that the backend no longer lists. *)
Definition selected : ProjectsView.State :=
  ProjectsView.mkSt (setActiveProject (Some "gone") initialState) false false "" None.


End Sample2.

(* ================================================================== *)
(** * The string helpers at sample texts *)

(** [trim] removes white space and line terminators beyond ASCII at both
    ends, keeps them inside the text, and keeps ZERO WIDTH SPACE. *)
Example trim_samples :
  Js.trim (Sample2.nbsp ++ Sample2.ideographicSpace) = "" /\
  Js.trim (" " ++ Sample2.nbsp ++ "a" ++ Sample2.nbsp ++ "b"
           ++ Sample2.lineSeparator ++ Sample2.ideographicSpace)
  = "a" ++ Sample2.nbsp ++ "b" /\
  Js.trim (Sample2.eAcute ++ " ") = Sample2.eAcute /\
  Js.trim Sample2.zeroWidthSpace = Sample2.zeroWidthSpace.
Proof. repeat split; vm_compute; reflexivity. Qed.

(** [slice(0, n)] and [length] count UTF-16 code units, not bytes: 80
    two-byte letters are kept whole, and a cut inside a surrogate pair
    keeps the high surrogate (U+D83D here). *)
Example preview_samples :
  ChatInput.preview (Sample2.copies 80 Sample2.eAcute) = Sample2.copies 80 Sample2.eAcute /\
  ChatInput.preview (Sample2.copies 81 Sample2.eAcute)
  = Sample2.copies 80 Sample2.eAcute ++ "…" /\
  ChatInput.preview (Sample2.copies 40 Sample2.grin) = Sample2.copies 40 Sample2.grin /\
  ChatInput.preview ("a" ++ Sample2.copies 40 Sample2.grin)
  = "a" ++ Sample2.copies 39 Sample2.grin ++ Sample2.bytes [237; 160; 189]%nat ++ "…" /\
  Js.units ("a" ++ Sample2.copies 40 Sample2.grin) = 81%nat.
Proof. repeat split; vm_compute; reflexivity. Qed.

(** [slice(n)], [startsWith] and [includes] on the same units. *)
Example drop_samples :
  JsText.drop 2 ("- " ++ Sample2.eAcute ++ "t") = Sample2.eAcute ++ "t" /\
  JsText.drop 1 (Sample2.eAcute ++ "t") = "t" /\
  JsText.drop 1 (Sample2.grin ++ "t") = Sample2.bytes [237; 184; 128]%nat ++ "t" /\
  JsText.drop 2 (Sample2.grin ++ "t") = "t" /\
  JsText.startsWith "```" "```js" = true /\
  JsText.includes Sample2.eAcute ("caf" ++ Sample2.eAcute) = true /\
  JsText.includes (Sample2.bytes [237; 160; 189]%nat) ("a" ++ Sample2.grin) = true /\
  JsText.includes "b" ("a" ++ Sample2.grin) = false.
Proof. repeat split; vm_compute; reflexivity. Qed.

(* ================================================================== *)
(** * Properties of the store *)

Section StoreFacts.

Lemma firstn_app_firstn {A} (n : nat) (xs ys : list A) :
  firstn n (xs ++ firstn n ys) = firstn n (xs ++ ys).
Proof.
  rewrite !firstn_app, firstn_firstn.
  f_equal. f_equal. lia.
Qed.

Lemma pushNotification_notifications n u t s :
  notifications (pushNotification n u t s)
  = firstn NOTIFICATION_CAP (Notification.create n u t :: notifications s).
Proof. reflexivity. Qed.

Lemma pushNotification_unreadCount n u t s :
  unreadCount (pushNotification n u t s) = unreadCount s + 1.
Proof. reflexivity. Qed.

Lemma pushAll_notifications ps : forall s,
  (List.length (notifications s) <= NOTIFICATION_CAP)%nat ->
  notifications (pushAll ps s)
  = firstn NOTIFICATION_CAP (rev (created ps) ++ notifications s).
Proof.
  induction ps as [|[[n u] t] ps IH]; intros s Hs.
  - unfold pushAll, created. cbn [fold_left map rev app].
    symmetry. apply firstn_all2. exact Hs.
  - change (pushAll (((n, u), t) :: ps) s)
      with (pushAll ps (pushNotification n u t s)).
    rewrite IH.
    + rewrite pushNotification_notifications.
      rewrite firstn_app_firstn.
      unfold created. cbn [map rev]. rewrite <- app_assoc. reflexivity.
    + rewrite pushNotification_notifications. apply firstn_le_length.
Qed.

Lemma filter_id_absent (i : string) (ns : list Notification.t) :
  (forall n, In n ns -> Notification.id n <> i) ->
  filter (fun n => negb (String.eqb (Notification.id n) i)) ns = ns.
Proof.
  induction ns as [|n ns IH]; intros H; simpl; [reflexivity|].
  destruct (String.eqb_spec (Notification.id n) i) as [E|E].
  - exfalso. apply (H n); [left; reflexivity | exact E].
  - simpl. f_equal. apply IH. intros m Hm. apply H. right. exact Hm.
Qed.

Lemma filter_unread_and (i : string) (ns : list Notification.t) :
  filter (fun n => negb (Notification.read n)
                   && negb (String.eqb (Notification.id n) i)) ns
  = filter Notification.unread
      (filter (fun n => negb (String.eqb (Notification.id n) i)) ns).
Proof.
  induction ns as [|n ns IH]; [reflexivity|].
  cbn [filter]. rewrite IH.
  destruct (String.eqb (Notification.id n) i); cbn [negb].
  - rewrite andb_false_r. reflexivity.
  - rewrite andb_true_r. cbn [filter]. unfold Notification.unread at 2.
    reflexivity.
Qed.

Lemma In_firstn_inv {A} (n : nat) (x : A) (xs : list A) :
  In x (firstn n xs) -> In x xs.
Proof.
  intros H. rewrite <- (firstn_skipn n xs). apply in_or_app. left. exact H.
Qed.

Lemma filter_twice {A} (f : A -> bool) (xs : list A) :
  filter f (filter f xs) = filter f xs.
Proof.
  induction xs as [|x xs IH]; [reflexivity|].
  cbn [filter]. destruct (f x) eqn:E; [|exact IH].
  cbn [filter]. rewrite E, IH. reflexivity.
Qed.

Lemma dismissNotification_unreadCount i s :
  unreadCount (dismissNotification i s)
  = unreadEntries (notifications (dismissNotification i s)).
Proof.
  unfold dismissNotification, unreadEntries. cbn [unreadCount notifications set_notifications].
  rewrite filter_unread_and. reflexivity.
Qed.

Lemma markAllRead_unreadCount s :
  unreadCount (markAllRead s) = unreadEntries (notifications (markAllRead s)).
Proof.
  unfold markAllRead, unreadEntries. cbn [unreadCount notifications set_notifications].
  induction (notifications s) as [|n ns IH]; [reflexivity|].
  cbn [map filter]. unfold Notification.unread at 1. cbn. exact IH.
Qed.

(** Below the cap a push keeps the counter equal to the number of unread
    entries: the drift needs an eviction. *)
Lemma pushNotification_unreadCount_below_cap n u t s :
  (List.length (notifications s) < NOTIFICATION_CAP)%nat ->
  unreadCount s = unreadEntries (notifications s) ->
  unreadCount (pushNotification n u t s)
  = unreadEntries (notifications (pushNotification n u t s)).
Proof.
  intros Hlen Hinv.
  rewrite pushNotification_unreadCount, pushNotification_notifications.
  rewrite firstn_all2 by (cbn [List.length]; lia).
  unfold unreadEntries in *. cbn [filter]. unfold Notification.unread at 1.
  cbn [Notification.create Notification.read negb List.length].
  rewrite Hinv. lia.
Qed.

Lemma replace_last_snoc c pre m :
  replace_last c (pre ++ [m]) = (pre ++ [Message.finalize m c])%list.
Proof.
  induction pre as [|x pre IH]; [reflexivity|].
  cbn [app replace_last]. rewrite IH.
  destruct (pre ++ [m])%list eqn:E; [|reflexivity].
  destruct pre; discriminate E.
Qed.

End StoreFacts.

(** C3. Starting from a store that holds at most 50 notifications, after
    any run of [pushNotification] calls the list holds at most 50 entries
    and is the 50 newest of "the created entries, newest first, followed by
    the old list", where the entry a call creates carries the fields of the
    call's argument, the drawn id, the time of the call and [read = false];
    a further push puts its entry at the head and keeps the first 49
    entries of the list behind it, so only the oldest entries are
    evicted. *)
Theorem pushNotification_capped
  (s : NexusState) (ps : list (Notification.input * string * Z)) :
  let entry (p : Notification.input * string * Z) :=
    let '(n, u, t) := p in
    Notification.mk u (Notification.in_type n) (Notification.in_title n)
      (Notification.in_body n) (Notification.in_agent n) t false
      (Notification.in_action n) in
  (List.length (notifications s) <= 50)%nat ->
  (List.length (notifications (pushAll ps s)) <= 50)%nat /\
  notifications (pushAll ps s) = firstn 50 (rev (map entry ps) ++ notifications s) /\
  (forall n u t,
      notifications (pushNotification n u t (pushAll ps s))
      = entry (n, u, t) :: firstn 49 (notifications (pushAll ps s))).
Proof.
  intros entry Hs.
  pose proof (pushAll_notifications ps s Hs) as E.
  change NOTIFICATION_CAP with 50%nat in E.
  assert (C : created ps = map entry ps).
  { unfold created. apply map_ext. intros [[n u] t]. reflexivity. }
  rewrite C in E.
  split; [|split].
  - rewrite E. apply firstn_le_length.
  - exact E.
  - intros n u t. reflexivity.
Qed.

(** Dismissing the same id twice leaves the store exactly as the first
    dismissal left it; every dismissal sets the counter
    to the number of unread entries that remain; dismissing an id that no
    entry carries leaves the list as it is and sets the counter to the
    number of unread entries, so that the store is unchanged whenever the
    counter already had that value. *)
Lemma dismissNotification_idempotent (i : string) (s : NexusState) :
  dismissNotification i (dismissNotification i s) = dismissNotification i s /\
  unreadCount (dismissNotification i s)
  = unreadEntries (notifications (dismissNotification i s)) /\
  ((forall n, In n (notifications s) -> Notification.id n <> i) ->
   notifications (dismissNotification i s) = notifications s /\
   unreadCount (dismissNotification i s) = unreadEntries (notifications s) /\
   (unreadCount s = unreadEntries (notifications s) -> dismissNotification i s = s)).
Proof.
  split; [|split].
  - unfold dismissNotification.
    cbn [notifications set_notifications messages sessionId currentView isLoading
         backendUrl unreadCount showNotifPanel projects tasks activeProjectId
         agentStatuses ollamaOnline telegramConnected commandBarOpen settings].
    rewrite !filter_unread_and, !filter_twice. reflexivity.
  - apply dismissNotification_unreadCount.
  - intros Habs.
    assert (E : notifications (dismissNotification i s) = notifications s)
      by (apply filter_id_absent; exact Habs).
    assert (C : unreadCount (dismissNotification i s) = unreadEntries (notifications s))
      by (rewrite dismissNotification_unreadCount, E; reflexivity).
    split; [exact E|]. split; [exact C|].
    intros Hinv.
    unfold dismissNotification in *.
    cbn [notifications unreadCount set_notifications] in E, C.
    unfold set_notifications. rewrite E, C, <- Hinv.
    destruct s; reflexivity.
Qed.

(** C9 at its failing input: after 51 pushes from the initial state the
    counter is 51 while the list holds 50 unread entries. *)
Theorem unreadCount_drifts_after_51_pushes :
  unreadCount after51 = 51 /\
  unreadEntries (notifications after51) = 50 /\
  List.length (notifications after51) = 50%nat.
Proof. vm_compute. repeat split; reflexivity. Qed.

(** C10. [updateLastMessage] on an empty message list returns the store
    unchanged; on a non-empty list it replaces the last message by a copy
    with the new content and [isStreaming = false] and keeps every earlier
    message and every other field. *)
Theorem updateLastMessage_total (c : string) (s : NexusState) :
  (messages s = [] -> updateLastMessage c s = s) /\
  (forall pre m, messages s = (pre ++ [m])%list ->
     updateLastMessage c s
     = set_messages
         (pre ++ [Message.mk (Message.id m) (Message.role m) c (Message.agent m)
                    (Message.timestamp m) (Some false)]) s).
Proof.
  split.
  - intros E. unfold updateLastMessage. rewrite E. cbn [replace_last].
    rewrite <- E. destruct s; reflexivity.
  - intros pre m E. unfold updateLastMessage. rewrite E, replace_last_snoc.
    reflexivity.
Qed.

(* ================================================================== *)
(** * Properties of the handlers *)




Lemma activeProject_id (r : ProjectsView.State) (p : Project.t) (pid : string) :
  activeProjectId (ProjectsView.store r) = Some pid ->
  ProjectsView.activeProject r = Some p ->
  Project._id p = pid.
Proof.
  unfold ProjectsView.activeProject. intros -> H.
  apply find_some in H. destruct H as [_ H]. cbn in H.
  apply String.eqb_eq. exact H.
Qed.

(** C6. [handleDeleteProject] issues the remote delete only for the
    active project and only when the typed confirmation is exactly its
    name; when the confirmation differs from the name, by whatever
    character, it returns before any remote call, leaves the projects and
    the selection as they were, and the DELETE PROJECT button of the open
    dialog is disabled. *)
Theorem handleDeleteProject_needs_exact_name
  (w : World) (r s : ProjectsView.State) :
  let out := exec w (ProjectsView.handleDeleteProject r) (start s) in
  (forall pid, In (deleteProject pid) (requests (fst out)) ->
     exists p, ProjectsView.activeProject r = Some p /\
               Project._id p = pid /\
               ProjectsView.deleteConfirmationName r = Project.name p) /\
  (forall p, ProjectsView.activeProject r = Some p ->
     ProjectsView.deleteConfirmationName r <> Project.name p ->
     requests (fst out) = [] /\
     snd out = Returned /\
     projects (ProjectsView.store (state (fst out))) = projects (ProjectsView.store s) /\
     activeProjectId (ProjectsView.store (state (fst out)))
     = activeProjectId (ProjectsView.store s) /\
     (ProjectsView.showDeleteProject r = true ->
      ProjectsView.deleteButtonDisabled r = Some true)).
Proof.
  cbv zeta. unfold ProjectsView.handleDeleteProject, ProjectsView.deleteButtonDisabled.
  destruct (activeProjectId (ProjectsView.store r)) as [pid0|] eqn:Eid.
  2:{ split; [intros pid []|].
      intros p Hp. unfold ProjectsView.activeProject in Hp. rewrite Eid in Hp.
      exfalso. clear -Hp. induction (projects (ProjectsView.store r)); [discriminate|].
      cbn in Hp. auto. }
  destruct (ProjectsView.activeProject r) as [p0|] eqn:Ep.
  2:{ destruct (String.eqb pid0 ""); (split; [intros pid []|]); intros p Hp; discriminate Hp. }
  pose proof (activeProject_id r p0 pid0 Eid Ep) as Hpid.
  destruct (String.eqb_spec (ProjectsView.deleteConfirmationName r) (Project.name p0))
    as [Heq|Hne].
  - split.
    + intros pid Hin. exists p0. split; [reflexivity|]. split; [|exact Heq].
      destruct (String.eqb pid0 ""); [destruct Hin|].
      cbn [negb] in Hin. unfold requests in Hin.
      cbn -[firstn] in Hin.
      destruct (answer w 0 fetchDebugProject) as [status|];
        [destruct (status =? 404)|];
        cbn -[firstn] in Hin;
        try destruct (answer w 1 (deleteProject pid0));
        cbn -[firstn] in Hin;
        repeat (destruct Hin as [Hin|Hin]; try discriminate Hin; try contradiction);
        injection Hin as <-; exact Hpid.
    + intros p Hp Hne. injection Hp as <-. contradiction.
  - split.
    + intros pid Hin. exfalso.
      destruct (String.eqb pid0 ""); [destruct Hin|].
      cbn -[firstn] in Hin. exact Hin.
    + intros p Hp Hne'. injection Hp as <-.
      destruct (String.eqb pid0 ""); cbn -[firstn];
        (repeat split; try reflexivity);
        intros ->; reflexivity.
Qed.

(** C8. When the projects view loads the project list while no project
    is active, the store receives the list; the first project of a
    non-empty list becomes the active project, and with an empty list
    [activeProjectId] stays null. *)
Theorem loadProjects_selects_first
  (w : World) (r : ProjectsView.State) (data : list Project.t) :
  activeProjectId (ProjectsView.store r) = None ->
  answer w 0 getProjects = Resolved data ->
  let out := exec w (ProjectsView.loadProjects r) (start r) in
  snd out = Normal /\
  projects (ProjectsView.store (state (fst out))) = data /\
  activeProjectId (ProjectsView.store (state (fst out)))
  = match data with
    | p :: _ => Some (Project._id p)
    | [] => None
    end /\
  ProjectsView.loading (state (fst out)) = false.
Proof.
  intros Hnone Hdata. cbv zeta. unfold ProjectsView.loadProjects.
  rewrite Hnone. cbn [exec start state calls drawn List.length Js.falsy].
  change (answer w 0 getProjects) with (answer w 0%nat getProjects).
  rewrite Hdata.
  destruct data as [|p ps]; cbn; repeat split; try reflexivity; exact Hnone.
Qed.

(* ================================================================== *)
(** * The polling cursor *)

Section Polling.
Import TelegramView TelegramLoop.

Variable w : World.





(** Notifying does not touch the messages, the cursor or the call log. *)
Lemma notifyEach_frame ms : forall r,
  let out := exec w (notifyEach ms Skip) r in
  snd out = Normal /\
  calls (fst out) = calls r /\
  messages (state (fst out)) = messages (state r) /\
  offset (state (fst out)) = offset (state r) /\
  pollActive (state (fst out)) = pollActive (state r).
Proof.
  induction ms as [|m ms IH]; intros r; [repeat split|].
  cbn [notifyEach exec].
  match goal with |- context [exec w (notifyEach ms Skip) ?r'] =>
    destruct (IH r') as (A & B & C & D & E) end.
  cbv zeta. rewrite A, B, C, D, E. repeat split.
Qed.


(** What the callback does with a parsed reply. *)
Lemma ingest_effect (d : TgData.t) (r : Run State) :
  let out := exec w (ingest d) r in
  snd out = Normal /\
  calls (fst out) = calls r /\
  pollActive (state (fst out)) = pollActive (state r) /\
  offset (state (fst out)) = advance (batch (Resolved d)) (offset (state r)) /\
  messages (state (fst out))
  = (messages (state r) ++ withText (map toMessage (batch (Resolved d))))%list.
Proof.
  cbv zeta. unfold ingest, batch.
  destruct (TgData.ok d && (0 <? List.length (TgData.result d))%nat) eqn:G.
  2:{ cbn. rewrite app_nil_r. repeat split. }
  cbn [exec state calls drawn].
  destruct (withText (map toMessage (TgData.result d))) as [|m ms] eqn:F.
  - cbn. rewrite app_nil_r. repeat split.
  - cbn [exec state calls drawn].
    match goal with |- context [exec w (notifyEach (m :: ms) Skip) ?r'] =>
      destruct (notifyEach_frame (m :: ms) r') as (A & B & C & D & E);
      destruct (exec w (notifyEach (m :: ms) Skip) r') as [r1 c1] end.
    cbn [fst snd] in A, B, C, D, E. subst c1.
    cbn -[firstn]. rewrite B, C, D, E. cbn. repeat split.
Qed.


(** A firing that finds no request in flight, followed by the arrival of
    what the world answers to it, is [tick]. *)
Lemma fires_then_arrives_is_tick (l : Loop) :
  pollActive (state (run l)) = true ->
  pending l = [] ->
  let q := getUpdates (token l) (offset (state (run l))) in
  let reply := answer w (List.length (calls (run l))) q in
  step w (step w l Fires) (Arrives 0 reply)
  = mkLoop (fst (exec w (tick (token l)) (run l))) (token l) [].
Proof.
  intros Ha Hp. cbv zeta. unfold step at 2. rewrite Ha, Hp.
  cbn [step pending app nth_error run token without firstn skipn].
  unfold tick. cbn [exec].
  destruct (answer w (List.length (calls (run l)))
              (getUpdates (token l) (offset (state (run l))))) as [d|];
    [|reflexivity].
  cbn [settle live].
  destruct (ingest_effect d
              (mkRun (state (run l))
                 (calls (run l)
                  ++ [(getUpdates (token l) (offset (state (run l))), state (run l))])
                 (drawn (run l)))) as (A & _).
  cbv zeta in A.
  destruct (exec w (ingest d) _) as [r1 c1]. cbn [snd] in A. subst c1. reflexivity.
Qed.





End Polling.


(* ================================================================== *)
(** * The theorems at concrete inputs *)

Lemma pushNotification_capped_witness :
  (List.length (notifications initialState) <= 50)%nat /\
  (List.length (notifications (pushAll (sampleTriples 51) initialState)) <= 50)%nat /\
  notifications (pushAll (sampleTriples 51) initialState)
  = map (fun k => Notification.mk (sampleId k) NotifType.info "Build" "finished" None
                    (Z.of_nat k) false None)
        (rev (seq 1 50)) /\
  notifications
    (pushNotification
       (Notification.mk_input NotifType.agent "ATLAS responded" "done" (Some ATLAS)
          (Some "Open"))
       "51" 51 (pushAll (sampleTriples 51) initialState))
  = Notification.mk "51" NotifType.agent "ATLAS responded" "done" (Some ATLAS) 51 false
      (Some "Open")
    :: map (fun k => Notification.mk (sampleId k) NotifType.info "Build" "finished" None
                       (Z.of_nat k) false None)
           (rev (seq 2 49)).
Proof.
  assert (H : (List.length (notifications initialState) <= 50)%nat) by (simpl; lia).
  destruct (pushNotification_capped initialState (sampleTriples 51) H) as (A & B & C).
  split; [exact H|]. split; [exact A|]. split.
  - rewrite B. vm_compute. reflexivity.
  - rewrite C, B. vm_compute. reflexivity.
Defined.

Lemma dismissNotification_idempotent_witness :
  (forall n, In n (notifications after3) -> Notification.id n <> "ghost") /\
  unreadCount after3 = unreadEntries (notifications after3) /\
  dismissNotification "ghost" after3 = after3.
Proof.
  assert (H1 : forall n, In n (notifications after3) -> Notification.id n <> "ghost").
  { intros n H. vm_compute in H.
    destruct H as [<-|[<-|[<-|[]]]]; simpl; discriminate. }
  assert (H2 : unreadCount after3 = unreadEntries (notifications after3))
    by (vm_compute; reflexivity).
  split; [exact H1|]. split; [exact H2|].
  exact (proj2 (proj2 (proj2 (proj2 (dismissNotification_idempotent "ghost" after3)) H1)) H2).
Defined.

(** C7 at its failing input: after 51 pushes from the initial state no
    entry carries the id "ghost", yet dismissing "ghost" changes the
    counter from 51 to 50, because the push that evicted an unread entry
    had left the counter one above the number of unread entries. *)
Theorem dismiss_absent_id_changes_counter :
  existsb (fun n => String.eqb (Notification.id n) "ghost") (notifications after51)
  = false /\
  unreadCount after51 = 51 /\
  unreadCount (dismissNotification "ghost" after51) = 50 /\
  dismissNotification "ghost" after51 <> after51.
Proof.
  split; [vm_compute; reflexivity|].
  split; [vm_compute; reflexivity|].
  assert (H : unreadCount (dismissNotification "ghost" after51) = 50)
    by (vm_compute; reflexivity).
  split; [exact H|].
  intros E. rewrite E in H. vm_compute in H. discriminate H.
Qed.

Lemma updateLastMessage_total_witness :
  messages initialState = [] /\
  updateLastMessage "late" initialState = initialState /\
  messages SampleChat.waiting = ([SampleChat.m1] ++ [SampleChat.m2])%list /\
  messages (updateLastMessage "hi there" SampleChat.waiting)
  = [SampleChat.m1; Message.mk "01" Role.assistant "hi there" NEXUS 1 (Some false)].
Proof.
  assert (H1 : messages initialState = []) by reflexivity.
  assert (H2 : messages SampleChat.waiting = ([SampleChat.m1] ++ [SampleChat.m2])%list)
    by reflexivity.
  split; [exact H1|].
  split; [exact (proj1 (updateLastMessage_total "late" initialState) H1)|].
  split; [exact H2|].
  rewrite (proj2 (updateLastMessage_total "hi there" SampleChat.waiting) _ _ H2).
  reflexivity.
Defined.





Lemma handleDeleteProject_needs_exact_name_witness :
  ProjectsView.activeProject Sample.boardTypedTrimmed = Some Sample.apollo /\
  ProjectsView.deleteConfirmationName Sample.boardTypedTrimmed = "Apollo" /\
  Project.name Sample.apollo = "Apollo " /\
  requests (fst (exec Sample.online
                   (ProjectsView.handleDeleteProject Sample.boardTypedTrimmed)
                   (start Sample.boardTypedTrimmed))) = [] /\
  ProjectsView.deleteButtonDisabled Sample.boardTypedTrimmed = Some true.
Proof.
  assert (H1 : ProjectsView.activeProject Sample.boardTypedTrimmed = Some Sample.apollo)
    by reflexivity.
  assert (H2 : ProjectsView.deleteConfirmationName Sample.boardTypedTrimmed
               <> Project.name Sample.apollo)
    by (simpl; discriminate).
  split; [exact H1|]. split; [reflexivity|]. split; [reflexivity|].
  destruct (proj2 (handleDeleteProject_needs_exact_name Sample.online
                     Sample.boardTypedTrimmed Sample.boardTypedTrimmed)
              Sample.apollo H1 H2) as (A & _ & _ & _ & B).
  split; [exact A | exact (B eq_refl)].
Defined.

Lemma loadProjects_selects_first_witness :
  activeProjectId (ProjectsView.store Sample.firstRender) = None /\
  activeProjectId
    (ProjectsView.store
       (state (fst (exec Sample.online (ProjectsView.loadProjects Sample.firstRender)
                      (start Sample.firstRender)))))
  = Some "p1" /\
  activeProjectId
    (ProjectsView.store
       (state (fst (exec Sample.emptyBackend (ProjectsView.loadProjects Sample.firstRender)
                      (start Sample.firstRender)))))
  = None.
Proof.
  assert (H : activeProjectId (ProjectsView.store Sample.firstRender) = None)
    by reflexivity.
  split; [exact H|]. split.
  - exact (proj1 (proj2 (proj2
             (loadProjects_selects_first Sample.online Sample.firstRender
                [Sample.apollo; Sample.gemini] H eq_refl)))).
  - exact (proj1 (proj2 (proj2
             (loadProjects_selects_first Sample.emptyBackend Sample.firstRender
                [] H eq_refl)))).
Defined.



(* ================================================================== *)
(** * Further properties of the store *)

Section MoreStoreFacts.

Lemma filter_swap {A} (f g : A -> bool) (xs : list A) :
  filter f (filter g xs) = filter g (filter f xs).
Proof.
  induction xs as [|x xs IH]; [reflexivity|].
  cbn [filter]. destruct (g x) eqn:G, (f x) eqn:F; cbn [filter];
    rewrite ?G, ?F, IH; reflexivity.
Qed.

Lemma filter_firstn_length {A} (f : A -> bool) (k : nat) (xs : list A) :
  (List.length (filter f (firstn k xs)) <= List.length (filter f xs))%nat.
Proof.
  revert k. induction xs as [|x xs IH]; intros [|k]; cbn [firstn filter List.length];
    try lia.
  specialize (IH k). destruct (f x); cbn [List.length]; lia.
Qed.

Lemma firstn_succ_cons {A} (k : nat) (x : A) (xs : list A) :
  firstn (S k) (x :: xs) = x :: firstn k xs.
Proof. reflexivity. Qed.

(** The list a push leaves, with the cap unfolded once. *)
Lemma pushNotification_cons n u t s :
  notifications (pushNotification n u t s)
  = Notification.create n u t :: firstn 49 (notifications s).
Proof. reflexivity. Qed.

Lemma dismissNotification_twice i s :
  dismissNotification i (dismissNotification i s) = dismissNotification i s.
Proof.
  unfold dismissNotification.
  cbn [notifications set_notifications messages sessionId currentView isLoading
       backendUrl unreadCount showNotifPanel projects tasks activeProjectId
       agentStatuses ollamaOnline telegramConnected commandBarOpen settings].
  rewrite !filter_unread_and, !filter_twice. reflexivity.
Qed.

Lemma dismissNotification_notifications i s :
  notifications (dismissNotification i s)
  = filter (fun n => negb (String.eqb (Notification.id n) i)) (notifications s).
Proof. reflexivity. Qed.

Lemma markAllRead_no_unread ns :
  filter Notification.unread (map Notification.mark_read ns) = [].
Proof.
  induction ns as [|n ns IH]; [reflexivity|].
  cbn [map filter]. unfold Notification.unread at 1. cbn. exact IH.
Qed.

Lemma mark_read_twice ns :
  map Notification.mark_read (map Notification.mark_read ns)
  = map Notification.mark_read ns.
Proof. rewrite map_map. apply map_ext. intros n. reflexivity. Qed.

Lemma applyOp_counted s op : counted s -> counted (applyOp s op).
Proof.
  intros [Hc Hl]. destruct op as [n u t| |i]; unfold counted; cbn [applyOp].
  - rewrite pushNotification_unreadCount, pushNotification_notifications. split.
    + unfold unreadEntries in *.
      pose proof (filter_firstn_length Notification.unread NOTIFICATION_CAP
                    (Notification.create n u t :: notifications s)) as H.
      cbn [filter] in H. unfold Notification.unread at 2 in H.
      cbn [Notification.create Notification.read negb List.length] in H. lia.
    + apply firstn_le_length.
  - rewrite markAllRead_unreadCount. split; [lia|].
    unfold markAllRead. cbn [notifications set_notifications].
    rewrite length_map. exact Hl.
  - rewrite dismissNotification_unreadCount. split; [lia|].
    rewrite dismissNotification_notifications.
    pose proof (filter_length_le
                  (fun n => negb (String.eqb (Notification.id n) i)) (notifications s)).
    lia.
Qed.

Lemma applyOps_counted ops : forall s, counted s -> counted (applyOps ops s).
Proof.
  unfold applyOps. induction ops as [|op ops IH]; intros s H; [exact H|].
  cbn [fold_left]. apply IH, applyOp_counted, H.
Qed.

End MoreStoreFacts.

(** X1. [markAllRead] replaces every entry by a copy that differs only
    in [read = true], in place, sets the counter to 0, which is then the
    number of unread entries, and touches no other field of the store;
    doing it again changes nothing; afterwards no toast is projected and
    the bell shows no badge. *)
Theorem markAllRead_settles (s : NexusState) :
  markAllRead (markAllRead s) = markAllRead s /\
  map Notification.id (notifications (markAllRead s))
  = map Notification.id (notifications s) /\
  (forall n, In n (notifications (markAllRead s)) -> Notification.read n = true) /\
  unreadCount (markAllRead s) = 0 /\
  NotificationPanel.unreadShown (markAllRead s) = 0 /\
  Toast.recent (markAllRead s) = [] /\
  Sidebar.badge (unreadCount (markAllRead s)) = None /\
  markAllRead s
  = mkState (messages s) (sessionId s) (currentView s) (isLoading s) (backendUrl s)
      (map (fun n =>
              Notification.mk (Notification.id n) (Notification.type n)
                (Notification.title n) (Notification.body n) (Notification.agent n)
                (Notification.timestamp n) true (Notification.action n))
           (notifications s))
      0 (showNotifPanel s) (projects s) (tasks s) (activeProjectId s)
      (agentStatuses s) (ollamaOnline s) (telegramConnected s) (commandBarOpen s)
      (settings s).
Proof.
  split; [|split; [|split; [|split; [|split; [|split; [|split]]]]]].
  - unfold markAllRead. cbn [notifications set_notifications messages sessionId
      currentView isLoading backendUrl unreadCount showNotifPanel projects tasks
      activeProjectId agentStatuses ollamaOnline telegramConnected commandBarOpen
      settings].
    rewrite mark_read_twice. reflexivity.
  - unfold markAllRead. cbn [notifications set_notifications].
    rewrite map_map. apply map_ext. intros n. reflexivity.
  - unfold markAllRead. cbn [notifications set_notifications].
    intros n H. apply in_map_iff in H. destruct H as [m [<- _]]. reflexivity.
  - reflexivity.
  - unfold NotificationPanel.unreadShown.
    rewrite <- markAllRead_unreadCount. reflexivity.
  - unfold Toast.recent, markAllRead. cbn [notifications set_notifications].
    rewrite markAllRead_no_unread. reflexivity.
  - reflexivity.
  - reflexivity.
Qed.

(** X2. In every state reached from the initial store by pushes,
    mark-all-read and dismissals, the counter is never below the number of
    unread entries and the list never exceeds 50 entries; so whenever an
    unread entry exists the bell shows a badge. *)
Theorem unreadCount_never_undercounts (ops : list NotifOp) :
  let s := reached ops in
  0 <= unreadEntries (notifications s) <= unreadCount s /\
  (List.length (notifications s) <= 50)%nat /\
  (forall n, In n (notifications s) -> Notification.read n = false ->
     Sidebar.badge (unreadCount s) <> None).
Proof.
  cbv zeta. unfold reached.
  assert (H0 : counted initialState) by (split; [reflexivity | simpl; lia]).
  destruct (applyOps_counted ops initialState H0) as [Hc Hl].
  set (s := applyOps ops initialState) in *.
  split; [split; [unfold unreadEntries; lia | exact Hc]|].
  split; [exact Hl|].
  intros n Hin Hread.
  assert (1 <= unreadEntries (notifications s)).
  { unfold unreadEntries.
    assert (Hf : In n (filter Notification.unread (notifications s))).
    { apply filter_In. split; [exact Hin|]. unfold Notification.unread.
      rewrite Hread. reflexivity. }
    destruct (filter Notification.unread (notifications s)); [destruct Hf|].
    cbn [List.length]. lia. }
  unfold Sidebar.badge.
  destruct (0 <? unreadCount s) eqn:E; [discriminate|].
  apply Z.ltb_ge in E. lia.
Qed.

(** X3. No notification operation makes a read entry unread: an unread
    entry of the list after an operation was an entry of the list before
    it, or is the entry that operation pushed. *)
Theorem read_flag_never_reset (s : NexusState) (op : NotifOp) (m : Notification.t) :
  In m (notifications (applyOp s op)) ->
  Notification.read m = false ->
  In m (notifications s) \/
  exists n u t, op = Push n u t /\ m = Notification.create n u t.
Proof.
  intros Hin Hread. destruct op as [n u t| |i]; cbn [applyOp] in Hin.
  - rewrite pushNotification_cons in Hin. destruct Hin as [<-|Hin].
    + right. exists n, u, t. split; reflexivity.
    + left. apply In_firstn_inv in Hin. exact Hin.
  - exfalso. unfold markAllRead in Hin. cbn [notifications set_notifications] in Hin.
    apply in_map_iff in Hin. destruct Hin as [x [<- _]]. discriminate Hread.
  - left. rewrite dismissNotification_notifications in Hin.
    apply filter_In in Hin. exact (proj1 Hin).
Qed.

(** X4. Pushing a notification under a fresh id and dismissing that id
    leaves the first 49 entries of the old list: the old list itself when
    it held fewer than 50 entries, and the old list without its oldest
    entry when it was full. *)
Theorem push_then_dismiss (s : NexusState) (n : Notification.input)
  (u : string) (t : Z) :
  (forall m, In m (notifications s) -> Notification.id m <> u) ->
  let s' := dismissNotification u (pushNotification n u t s) in
  notifications s' = firstn 49 (notifications s) /\
  unreadCount s' = unreadEntries (firstn 49 (notifications s)) /\
  ((List.length (notifications s) < 50)%nat -> notifications s' = notifications s).
Proof.
  intros Hfresh. cbv zeta.
  assert (E : notifications (dismissNotification u (pushNotification n u t s))
              = firstn 49 (notifications s)).
  { rewrite dismissNotification_notifications, pushNotification_cons.
    cbn [filter Notification.create Notification.id].
    rewrite String.eqb_refl. cbn [negb].
    apply filter_id_absent. intros m Hm. apply Hfresh.
    apply In_firstn_inv in Hm. exact Hm. }
  split; [exact E|]. split.
  - rewrite dismissNotification_unreadCount, E. reflexivity.
  - intros Hlen. rewrite E. apply firstn_all2. lia.
Qed.

(** Dismissals commute: dismissing two ids in either order gives the
    same store. *)
Lemma dismissNotification_commutes (i j : string) (s : NexusState) :
  dismissNotification i (dismissNotification j s)
  = dismissNotification j (dismissNotification i s).
Proof.
  unfold dismissNotification.
  cbn [notifications set_notifications messages sessionId currentView isLoading
       backendUrl unreadCount showNotifPanel projects tasks activeProjectId
       agentStatuses ollamaOnline telegramConnected commandBarOpen settings].
  rewrite !filter_unread_and.
  rewrite (filter_swap (fun n => negb (String.eqb (Notification.id n) i))
                       (fun n => negb (String.eqb (Notification.id n) j))).
  reflexivity.
Qed.

(** X5. [updateSettings] with an empty patch changes nothing; two
    updates in a row are one update with the second patch laid over the
    first; and once a patch has switched [notifDesktop] off, a push raises
    no operating-system notification, whatever the browser allows. *)
Theorem updateSettings_merges (p q : SettingsPatch.t) (s : NexusState) :
  updateSettings SettingsPatch.empty s = s /\
  updateSettings q (updateSettings p s) = updateSettings (SettingsPatch.overlay p q) s /\
  (SettingsPatch.notifDesktop p = Some false ->
   forall hasApi granted n,
     desktopNotification hasApi granted n (updateSettings p s) = None).
Proof.
  split; [|split].
  - destruct s as [? ? ? ? ? ? ? ? ? ? ? ? ? ? ? []]. reflexivity.
  - unfold updateSettings, set_settings, mergeSettings.
    cbn [settings messages sessionId currentView isLoading backendUrl notifications
         unreadCount showNotifPanel projects tasks activeProjectId agentStatuses
         ollamaOnline telegramConnected commandBarOpen
         telegramToken telegramChatId githubToken notionKey ollamaModel
         morningTime eveningTime notifSound notifDesktop].
    destruct p as [p1 p2 p3 p4 p5 p6 p7 p8 p9], q as [q1 q2 q3 q4 q5 q6 q7 q8 q9].
    cbn [SettingsPatch.overlay SettingsPatch.telegramToken SettingsPatch.telegramChatId
         SettingsPatch.githubToken SettingsPatch.notionKey SettingsPatch.ollamaModel
         SettingsPatch.morningTime SettingsPatch.eveningTime SettingsPatch.notifSound
         SettingsPatch.notifDesktop].
    destruct q1, q2, q3, q4, q5, q6, q7, q8, q9; reflexivity.
  - intros Hoff hasApi granted n. unfold desktopNotification, updateSettings.
    cbn [settings set_settings mergeSettings notifDesktop].
    rewrite Hoff. reflexivity.
Qed.

(** X6. [updateLastMessage] never changes the number of messages; a
    second update overwrites the first; after [addMessage] it finalises
    exactly the message just added; and after [clearChat] it finds nothing
    to update. *)
Theorem updateLastMessage_overwrites (c1 c2 : string) (s : NexusState) :
  List.length (messages (updateLastMessage c1 s)) = List.length (messages s) /\
  updateLastMessage c2 (updateLastMessage c1 s) = updateLastMessage c2 s /\
  (forall m u t,
     messages (updateLastMessage c1 (addMessage m u t s))
     = (messages s
        ++ [Message.mk u (Message.in_role m) c1 (Message.in_agent m) t (Some false)])%list) /\
  updateLastMessage c1 (clearChat s) = clearChat s.
Proof.
  assert (L : forall c ms, List.length (replace_last c ms) = List.length ms).
  { intros c ms. induction ms as [|m ms IH]; [reflexivity|].
    destruct ms as [|m' ms]; [reflexivity|].
    change (replace_last c (m :: m' :: ms)) with (m :: replace_last c (m' :: ms)).
    cbn [List.length]. rewrite IH. reflexivity. }
  assert (T : forall ms, replace_last c2 (replace_last c1 ms) = replace_last c2 ms).
  { intros ms. induction ms as [|m ms IH]; [reflexivity|].
    destruct ms as [|m' ms]; [reflexivity|].
    change (replace_last c1 (m :: m' :: ms)) with (m :: replace_last c1 (m' :: ms)).
    change (replace_last c2 (m :: m' :: ms)) with (m :: replace_last c2 (m' :: ms)).
    rewrite <- IH.
    destruct (replace_last c1 (m' :: ms)) eqn:E; [|reflexivity].
    pose proof (L c1 (m' :: ms)) as Hl. rewrite E in Hl. discriminate Hl. }
  split; [apply L|]. split; [|split].
  - unfold updateLastMessage, set_messages.
    cbn [messages sessionId currentView isLoading backendUrl notifications
         unreadCount showNotifPanel projects tasks activeProjectId agentStatuses
         ollamaOnline telegramConnected commandBarOpen settings].
    rewrite T. reflexivity.
  - intros m u t. unfold updateLastMessage, addMessage. cbn [messages set_messages].
    rewrite replace_last_snoc. reflexivity.
  - reflexivity.
Qed.

(** X7. The toast view holds at most four entries, each an unread entry
    of the queue; and a notification that has just been pushed is always
    the first toast. *)
Theorem toast_view_shows_newest (s : NexusState) :
  (List.length (Toast.recent s) <= 4)%nat /\
  (forall m, In m (Toast.recent s) ->
     In m (notifications s) /\ Notification.read m = false) /\
  (forall n u t,
     Toast.recent (pushNotification n u t s)
     = Notification.create n u t
       :: firstn 3 (filter Notification.unread (firstn 49 (notifications s)))).
Proof.
  split; [|split].
  - apply firstn_le_length.
  - intros m H. unfold Toast.recent, Js.slice in H.
    apply In_firstn_inv in H. apply filter_In in H. destruct H as [H1 H2].
    split; [exact H1|]. unfold Notification.unread in H2.
    destruct (Notification.read m); [discriminate H2 | reflexivity].
  - intros n u t. unfold Toast.recent, Js.slice.
    rewrite pushNotification_cons. reflexivity.
Qed.

Lemma toast_step_contained (notif : Notification.t) (s : NexusState)
  (e : Toast.Event) (t : Toast.State) :
  (Toast.store t = s \/ Toast.store t = dismissNotification (Notification.id notif) s) ->
  Toast.store (Toast.step notif e t) = s \/
  Toast.store (Toast.step notif e t) = dismissNotification (Notification.id notif) s.
Proof.
  intros H. destruct e; cbn [Toast.step Toast.store]; try exact H.
  destruct (Toast.pendingDismiss t); [exact H|].
  cbn [Toast.store]. unfold Toast.onDismiss. right.
  destruct H as [->| ->]; [reflexivity | apply dismissNotification_twice].
Qed.

Lemma toast_step_idle (notif : Notification.t) (e : Toast.Event) (t : Toast.State) :
  ToastLife.startsExit e = false ->
  Toast.pendingDismiss t = 0%nat ->
  Toast.step notif e t = t.
Proof.
  intros He Hp. destruct e; try discriminate He.
  cbn [Toast.step]. rewrite Hp. reflexivity.
Qed.

(** X8. Whatever the order and number of timer and click events a toast
    receives, the store is either untouched or has the toast's own
    notification dismissed, once; entries with other ids are never
    removed; and without a timer expiry or a click nothing is dismissed. *)
Theorem toast_events_contained
  (notif : Notification.t) (es : list Toast.Event) (s : NexusState) :
  let t := ToastLife.after notif es (Toast.mount s) in
  (Toast.store t = s \/
   Toast.store t = dismissNotification (Notification.id notif) s) /\
  (forall m, In m (notifications s) ->
     Notification.id m <> Notification.id notif ->
     In m (notifications (Toast.store t))) /\
  (forallb (fun e => negb (ToastLife.startsExit e)) es = true ->
   Toast.store t = s).
Proof.
  cbv zeta.
  assert (A : forall es t,
             (Toast.store t = s \/
              Toast.store t = dismissNotification (Notification.id notif) s) ->
             Toast.store (ToastLife.after notif es t) = s \/
             Toast.store (ToastLife.after notif es t)
             = dismissNotification (Notification.id notif) s).
  { clear es. intros es. unfold ToastLife.after.
    induction es as [|e es IH]; intros t H; [exact H|].
    cbn [fold_left]. apply IH, toast_step_contained, H. }
  assert (B : forall es t,
             forallb (fun e => negb (ToastLife.startsExit e)) es = true ->
             Toast.pendingDismiss t = 0%nat ->
             ToastLife.after notif es t = t).
  { clear es. intros es. unfold ToastLife.after.
    induction es as [|e es IH]; intros t H Hp; [reflexivity|].
    cbn [fold_left forallb] in *. apply andb_prop in H. destruct H as [He H].
    rewrite toast_step_idle; [apply IH; assumption | | exact Hp].
    destruct (ToastLife.startsExit e); [discriminate He | reflexivity]. }
  split; [apply A; left; reflexivity|]. split.
  - intros m Hin Hid.
    destruct (A es (Toast.mount s) (or_introl eq_refl)) as [-> | ->]; [exact Hin|].
    rewrite dismissNotification_notifications. apply filter_In.
    split; [exact Hin|]. apply negb_true_iff, String.eqb_neq. exact Hid.
  - intros H. rewrite B; [reflexivity | exact H | reflexivity].
Qed.

(** X9. [timeAgo] says "just now" for anything younger than a minute,
    timestamps in the future included; otherwise it prints between 1 and
    59 minutes, between 1 and 23 hours, or at least 1 day. *)
Theorem timeAgo_ranges (now date : Z) :
  let secs := (now - date) / 1000 in
  (secs < 60 -> NotificationPanel.timeAgo now date = "just now") /\
  (now <= date -> NotificationPanel.timeAgo now date = "just now") /\
  (60 <= secs < 3600 ->
   NotificationPanel.timeAgo now date = JsText.show (secs / 60) ++ "m ago" /\
   1 <= secs / 60 <= 59) /\
  (3600 <= secs < 86400 ->
   NotificationPanel.timeAgo now date = JsText.show (secs / 3600) ++ "h ago" /\
   1 <= secs / 3600 <= 23) /\
  (86400 <= secs ->
   NotificationPanel.timeAgo now date = JsText.show (secs / 86400) ++ "d ago" /\
   1 <= secs / 86400).
Proof.
  cbv zeta. unfold NotificationPanel.timeAgo.
  set (secs := (now - date) / 1000).
  assert (J : secs < 60 -> (secs <? 60) = true) by (intros; apply Z.ltb_lt; lia).
  split; [intros H; rewrite (J H); reflexivity|].
  split.
  { intros H. rewrite J; [reflexivity|].
    subst secs. assert ((now - date) / 1000 <= 0); [|lia].
    apply Z.div_le_upper_bound; lia. }
  split; [|split].
  - intros [H1 H2].
    assert (E1 : (secs <? 60) = false) by (apply Z.ltb_ge; lia).
    assert (E2 : (secs <? 3600) = true) by (apply Z.ltb_lt; lia).
    rewrite E1, E2. split; [reflexivity|]. split.
    + apply Z.div_le_lower_bound; lia.
    + assert (secs / 60 < 60); [apply Z.div_lt_upper_bound; lia | lia].
  - intros [H1 H2].
    assert (E1 : (secs <? 60) = false) by (apply Z.ltb_ge; lia).
    assert (E2 : (secs <? 3600) = false) by (apply Z.ltb_ge; lia).
    assert (E3 : (secs <? 86400) = true) by (apply Z.ltb_lt; lia).
    rewrite E1, E2, E3. split; [reflexivity|]. split.
    + apply Z.div_le_lower_bound; lia.
    + assert (secs / 3600 < 24); [apply Z.div_lt_upper_bound; lia | lia].
  - intros H1.
    assert (E1 : (secs <? 60) = false) by (apply Z.ltb_ge; lia).
    assert (E2 : (secs <? 3600) = false) by (apply Z.ltb_ge; lia).
    assert (E3 : (secs <? 86400) = false) by (apply Z.ltb_ge; lia).
    rewrite E1, E2, E3. split; [reflexivity|].
    apply Z.div_le_lower_bound; lia.
Qed.

(* ================================================================== *)
(** * The board *)

Lemma tasksByStatus_cons (t : Task.t) (ts : list Task.t) (k : string) :
  Board.tasksByStatus (t :: ts) k
  = if String.eqb (Task.status t) k
    then t :: Board.tasksByStatus ts k
    else Board.tasksByStatus ts k.
Proof. reflexivity. Qed.

(** X10. The board shows a task in at most one column; it shows exactly
    the tasks whose status is one of the four column keys, each once, and a
    task with any other status appears in no column. *)
Theorem board_columns_partition (ts : list Task.t) :
  (forall t k1 k2,
     In t (Board.tasksByStatus ts k1) -> In t (Board.tasksByStatus ts k2) -> k1 = k2) /\
  Permutation (Board.shown ts) (filter Board.hasColumn ts) /\
  (forall t, Board.hasColumn t = false -> ~ In t (Board.shown ts)).
Proof.
  assert (P : Permutation (Board.shown ts) (filter Board.hasColumn ts)).
  { unfold Board.shown, Board.columns, Board.STATUS_KEYS.
    cbn [map snd List.concat]. rewrite app_nil_r.
    induction ts as [|t ts IH]; [reflexivity|].
    rewrite !tasksByStatus_cons. cbn [filter].
    unfold Board.hasColumn, Board.STATUS_KEYS. cbn [existsb].
    destruct (String.eqb_spec (Task.status t) "todo") as [E1|E1].
    { rewrite E1. cbn. apply perm_skip. exact IH. }
    destruct (String.eqb_spec (Task.status t) "in_progress") as [E2|E2].
    { rewrite E2. cbn [String.eqb Ascii.eqb Bool.eqb orb].
      apply Permutation_sym, Permutation_cons_app, Permutation_sym. exact IH. }
    destruct (String.eqb_spec (Task.status t) "blocked") as [E3|E3].
    { rewrite E3. cbn [String.eqb Ascii.eqb Bool.eqb orb app].
      rewrite app_assoc.
      apply Permutation_sym, Permutation_cons_app, Permutation_sym.
      rewrite <- app_assoc. exact IH. }
    destruct (String.eqb_spec (Task.status t) "done") as [E4|E4].
    { cbn [orb]. rewrite !app_assoc.
      apply Permutation_sym, Permutation_cons_app, Permutation_sym.
      rewrite <- !app_assoc. exact IH. }
    cbn [orb]. exact IH. }
  split; [|split; [exact P|]].
  - intros t k1 k2 H1 H2. unfold Board.tasksByStatus in *.
    apply filter_In in H1, H2. destruct H1 as [_ H1], H2 as [_ H2].
    apply String.eqb_eq in H1, H2. congruence.
  - intros t Ht Hin. apply (Permutation_in _ P) in Hin.
    apply filter_In in Hin. destruct Hin as [_ Hin]. congruence.
Qed.

(** X11. Replacing the status of the tasks with a given id keeps the
    number and the ids of the tasks; afterwards every task with that id
    has the new status, every other column has lost exactly the tasks with
    that id, and when no task carries the id the list is unchanged. *)
Theorem restatus_moves_between_columns
  (taskId newStatus : string) (ts : list Task.t) :
  let ts' := ProjectsView.restatus taskId newStatus ts in
  map Task.id ts' = map Task.id ts /\
  (forall t, In t ts' -> Task.id t = taskId -> Task.status t = newStatus) /\
  (forall k, k <> newStatus ->
     Board.tasksByStatus ts' k
     = filter (fun t => negb (String.eqb (Task.id t) taskId))
         (Board.tasksByStatus ts k)) /\
  ((forall t, In t ts -> Task.id t <> taskId) -> ts' = ts).
Proof.
  cbv zeta. unfold ProjectsView.restatus. split; [|split; [|split]].
  - rewrite map_map. apply map_ext. intros t.
    destruct (String.eqb (Task.id t) taskId); reflexivity.
  - intros t Hin Hid. apply in_map_iff in Hin. destruct Hin as [t0 [<- _]].
    destruct (String.eqb_spec (Task.id t0) taskId) as [E|E]; [reflexivity|].
    contradiction.
  - intros k Hk. induction ts as [|t ts IH]; [reflexivity|].
    cbn [map]. rewrite !tasksByStatus_cons.
    destruct (String.eqb_spec (Task.id t) taskId) as [E|E].
    + cbn [Task.with_status Task.status].
      destruct (String.eqb_spec newStatus k) as [E'|_]; [congruence|].
      destruct (String.eqb (Task.status t) k); cbn [filter];
        rewrite ?E, ?String.eqb_refl; cbn [negb]; exact IH.
    + destruct (String.eqb (Task.status t) k); cbn [filter]; [|exact IH].
      destruct (String.eqb_spec (Task.id t) taskId) as [E'|_]; [contradiction|].
      cbn [negb]. f_equal. exact IH.
  - intros H. induction ts as [|t ts IH]; [reflexivity|].
    cbn [map].
    destruct (String.eqb_spec (Task.id t) taskId) as [E|E].
    + exfalso. apply (H t); [left; reflexivity | exact E].
    + f_equal. apply IH. intros t' Ht'. apply H. right. exact Ht'.
Qed.

(* ================================================================== *)
(** * The other paths of the projects view's handlers *)

(** X12. When the project list cannot be fetched, [loadProjects] does
    not throw, leaves the projects and the selection as they were, pushes
    one "Projects Error" notification and ends with [loading] false. *)
Theorem loadProjects_failure_reported
  (w : World) (r : ProjectsView.State) (x : Run ProjectsView.State) :
  answer w (List.length (calls x)) getProjects = Rejected ->
  let out := exec w (ProjectsView.loadProjects r) x in
  let st := ProjectsView.store (state (fst out)) in
  let st0 := ProjectsView.store (state x) in
  snd out = Normal /\
  requests (fst out) = (requests x ++ [getProjects])%list /\
  projects st = projects st0 /\
  activeProjectId st = activeProjectId st0 /\
  ProjectsView.loading (state (fst out)) = false /\
  notifications st
  = firstn 50
      (Notification.mk (uuid w (drawn x)) NotifType.error "Projects Error"
         "Could not load projects" None (clock w (drawn x)) false None
       :: notifications st0) /\
  unreadCount st = unreadCount st0 + 1.
Proof.
  intros Hrej. cbv zeta. unfold ProjectsView.loadProjects, requests.
  cbn [exec state calls drawn]. rewrite Hrej.
  cbn -[firstn]. rewrite map_app. repeat split.
Qed.

(** X13. When a project is already selected, [loadProjects] replaces the
    list and leaves the selection alone, whether or not the new list still
    holds the selected project. *)
Theorem loadProjects_keeps_selection
  (w : World) (r : ProjectsView.State) (x : Run ProjectsView.State)
  (a : string) (data : list Project.t) :
  activeProjectId (ProjectsView.store r) = Some a ->
  a <> "" ->
  answer w (List.length (calls x)) getProjects = Resolved data ->
  let out := exec w (ProjectsView.loadProjects r) x in
  snd out = Normal /\
  projects (ProjectsView.store (state (fst out))) = data /\
  activeProjectId (ProjectsView.store (state (fst out)))
  = activeProjectId (ProjectsView.store (state x)) /\
  ProjectsView.loading (state (fst out)) = false.
Proof.
  intros Ha Hne Hres. cbv zeta. unfold ProjectsView.loadProjects.
  cbn [exec state calls drawn]. rewrite Hres, Ha.
  apply String.eqb_neq in Hne. cbn [Js.falsy]. rewrite Hne.
  destruct data; cbn; repeat split.
Qed.


Section DeleteProject.

Variables (w : World) (r s : ProjectsView.State) (p : Project.t) (pid : string).
Hypothesis Hactive : activeProjectId (ProjectsView.store r) = Some pid.
Hypothesis Hpid : pid <> "".
Hypothesis Hfound : ProjectsView.activeProject r = Some p.
Hypothesis Hname : ProjectsView.deleteConfirmationName r = Project.name p.

(** With the confirmation typed exactly, the handler is its two [try]
    blocks. *)
Lemma handleDeleteProject_confirmed :
  ProjectsView.handleDeleteProject r
  = Try
      (Await fetchDebugProject (fun status =>
       if status =? 404
       then ProjectsView.notify NotifType.error "BACKEND RESTART REQUIRED"
              "The server is running old code. Please restart 'uvicorn' in your terminal."
              None Return
       else Skip))
      Skip
      Skip
     (Try
        (Await (deleteProject pid) (fun _ =>
         Update (ProjectsView.onStore
                   (setProjects (ProjectsView.others (Some pid)
                                   (projects (ProjectsView.store r)))))
        (Update (ProjectsView.setShowDeleteProject false)
        (Update (ProjectsView.setDeleteConfirmationName "")
        (Update (ProjectsView.onStore (setActiveProject
                   (match ProjectsView.others (Some pid)
                            (projects (ProjectsView.store r)) with
                    | q :: _ => Some (Project._id q)
                    | [] => None
                    end)))
        (ProjectsView.notify NotifType.success "Project Deleted" (Project.name p)
           None Skip))))))
        (ProjectsView.notify NotifType.error "Error" "Could not delete project"
           None Skip)
        Skip
        Skip).
Proof.
  unfold ProjectsView.handleDeleteProject.
  rewrite Hactive, Hfound, Hname, String.eqb_refl.
  apply String.eqb_neq in Hpid. rewrite Hpid. reflexivity.
Qed.

End DeleteProject.

(** X15. With the confirmation typed exactly, a debug probe that does
    not answer 404 (or fails) and a delete call that resolves,
    [handleDeleteProject] removes every project with the active id from
    the handler's list, selects the first remaining project or none,
    closes the dialog and clears the typed name. *)
Theorem handleDeleteProject_deletes
  (w : World) (r s : ProjectsView.State) (p : Project.t) (pid : string) :
  activeProjectId (ProjectsView.store r) = Some pid ->
  pid <> "" ->
  ProjectsView.activeProject r = Some p ->
  ProjectsView.deleteConfirmationName r = Project.name p ->
  answer w 0 fetchDebugProject <> Resolved 404 ->
  answer w 1 (deleteProject pid) = Resolved tt ->
  let out := exec w (ProjectsView.handleDeleteProject r) (start s) in
  let remaining := ProjectsView.others (Some pid) (projects (ProjectsView.store r)) in
  snd out = Normal /\
  requests (fst out) = [fetchDebugProject; deleteProject pid] /\
  projects (ProjectsView.store (state (fst out))) = remaining /\
  (forall q, In q remaining -> Project._id q <> pid) /\
  activeProjectId (ProjectsView.store (state (fst out)))
  = match remaining with
    | q :: _ => Some (Project._id q)
    | [] => None
    end /\
  ProjectsView.showDeleteProject (state (fst out)) = false /\
  ProjectsView.deleteConfirmationName (state (fst out)) = "".
Proof.
  intros Hactive Hpid Hfound Hname Hprobe Hdel. cbv zeta.
  rewrite (handleDeleteProject_confirmed r p pid Hactive Hpid Hfound Hname).
  assert (Hrem : forall q,
             In q (ProjectsView.others (Some pid) (projects (ProjectsView.store r))) ->
             Project._id q <> pid).
  { intros q Hq. unfold ProjectsView.others in Hq. apply filter_In in Hq.
    destruct Hq as [_ Hq]. cbn in Hq. apply negb_true_iff, String.eqb_neq in Hq.
    exact Hq. }
  unfold requests. cbn [exec start state calls drawn List.length app].
  destruct (answer w 0 fetchDebugProject) as [status|].
  - destruct (Z.eqb_spec status 404) as [->|_]; [contradiction Hprobe; reflexivity|].
    cbn [exec state calls drawn List.length app]. rewrite Hdel.
    cbn -[firstn]. repeat split. exact Hrem.
  - cbn [exec state calls drawn List.length app]. rewrite Hdel.
    cbn -[firstn]. repeat split. exact Hrem.
Qed.

(** X16. With the confirmation typed exactly, when the debug probe
    answers 404 or the delete call is rejected, [handleDeleteProject] does
    not throw and leaves the projects, the selection, the dialog and the
    typed name as they were, pushing one error notification; after a 404
    the delete call is not made at all. *)
Theorem handleDeleteProject_failure_keeps
  (w : World) (r s : ProjectsView.State) (p : Project.t) (pid : string) :
  activeProjectId (ProjectsView.store r) = Some pid ->
  pid <> "" ->
  ProjectsView.activeProject r = Some p ->
  ProjectsView.deleteConfirmationName r = Project.name p ->
  answer w 0 fetchDebugProject = Resolved 404 \/
  answer w 1 (deleteProject pid) = Rejected ->
  let out := exec w (ProjectsView.handleDeleteProject r) (start s) in
  let st := ProjectsView.store (state (fst out)) in
  snd out <> Thrown /\
  projects st = projects (ProjectsView.store s) /\
  activeProjectId st = activeProjectId (ProjectsView.store s) /\
  ProjectsView.showDeleteProject (state (fst out)) = ProjectsView.showDeleteProject s /\
  ProjectsView.deleteConfirmationName (state (fst out))
  = ProjectsView.deleteConfirmationName s /\
  (exists e, notifications st = firstn 50 (e :: notifications (ProjectsView.store s)) /\
             Notification.type e = NotifType.error) /\
  (answer w 0 fetchDebugProject = Resolved 404 ->
   requests (fst out) = [fetchDebugProject]).
Proof.
  intros Hactive Hpid Hfound Hname Hfail. cbv zeta.
  rewrite (handleDeleteProject_confirmed r p pid Hactive Hpid Hfound Hname).
  unfold requests. cbn [exec start state calls drawn List.length app].
  destruct (answer w 0 fetchDebugProject) as [status|] eqn:Eprobe.
  - destruct (Z.eqb_spec status 404) as [->|Hs].
    + cbn -[firstn]. repeat split; try discriminate.
      eexists. split; reflexivity.
    + destruct Hfail as [Hfail|Hfail]; [congruence|].
      cbn [exec state calls drawn List.length app]. rewrite Hfail.
      cbn -[firstn]. repeat split; try discriminate.
      * eexists. split; reflexivity.
      * intros H. congruence.
  - destruct Hfail as [Hfail|Hfail]; [discriminate Hfail|].
    cbn [exec state calls drawn List.length app]. rewrite Hfail.
    cbn -[firstn]. repeat split; try discriminate.
    eexists. split; reflexivity.
Qed.

(** X17. Dropping on a column while nothing is dragged does nothing and
    calls nothing; dropping a dragged task makes the one status call and
    ends with nothing dragged, whether the call resolves or is rejected. *)
Theorem onDrop_ends_drag
  (w : World) (r : ProjectsView.State) (colKey : string)
  (x : Run ProjectsView.State) :
  let out := exec w (ProjectsView.onDrop r colKey) x in
  snd out = Normal /\
  match ProjectsView.dragging r with
  | None => fst out = x
  | Some d =>
      requests (fst out) = (requests x ++ [updateTaskStatus d colKey])%list /\
      ProjectsView.dragging (state (fst out)) = None
  end.
Proof.
  cbv zeta. unfold ProjectsView.onDrop, ProjectsView.handleStatusChange, requests.
  destruct (ProjectsView.dragging r) as [d|]; [|split; reflexivity].
  cbn [exec].
  destruct (answer w (List.length (calls x)) (updateTaskStatus d colKey));
    cbn; rewrite map_app; repeat split.
Qed.

(* ================================================================== *)
(** * The other paths of the chat input *)

(** X18. When the trimmed text is empty or a send is already in
    progress, [submit] returns at once: no message is added, the text
    field is not cleared and nothing is sent. *)
Theorem submit_guard_blocks
  (w : World) (r : ChatInput.State) (overrideMsg : option string)
  (x : Run ChatInput.State) :
  Js.trim (Js.or_else overrideMsg (ChatInput.value r)) = "" \/
  isLoading (ChatInput.store r) = true ->
  exec w (ChatInput.submit r overrideMsg) x = (x, Returned).
Proof.
  intros [H|H]; unfold ChatInput.submit; rewrite H.
  - reflexivity.
  - rewrite orb_true_r. reflexivity.
Qed.

(** X19. When the chat call resolves, [submit] adopts the server's
    session id only if the input had none, empties the text field, and
    pushes a notification exactly when the answering agent is not NEXUS. *)
Theorem submit_success_adopts_session
  (w : World) (r : ChatInput.State) (overrideMsg : option string)
  (x : Run ChatInput.State) (data : ChatData.t) :
  let msg := Js.trim (Js.or_else overrideMsg (ChatInput.value r)) in
  let out := exec w (ChatInput.submit r overrideMsg) x in
  let st := ChatInput.store (state (fst out)) in
  let st0 := ChatInput.store (state x) in
  msg <> "" ->
  isLoading (ChatInput.store r) = false ->
  answer w (List.length (calls x)) (sendChat msg (sessionId (ChatInput.store r)))
  = Resolved data ->
  sessionId st
  = (if Js.falsy (sessionId (ChatInput.store r))
     then Some (ChatData.session_id data)
     else sessionId st0) /\
  ChatInput.value (state (fst out)) = "" /\
  notifications st
  = (if Agent_eqb (ChatData.agent data) NEXUS
     then notifications st0
     else firstn 50
            (Notification.mk (uuid w (S (S (drawn x)))) NotifType.agent
               (Agent_name (ChatData.agent data) ++ " responded")
               (ChatInput.preview (ChatData.response data))
               (Some (ChatData.agent data)) (clock w (S (S (drawn x)))) false None
             :: notifications st0)).
Proof.
  intros msg out st st0 Hmsg Hidle Hres.
  subst out st st0. unfold ChatInput.submit. fold msg.
  apply String.eqb_neq in Hmsg. rewrite Hmsg, Hidle. cbn [orb].
  cbn [exec state calls drawn]. rewrite Hres.
  destruct (Js.falsy (sessionId (ChatInput.store r)));
    destruct (Agent_eqb (ChatData.agent data) NEXUS);
    cbn -[firstn replace_last]; repeat split.
Qed.

(* ================================================================== *)
(** * The command palette *)

Section Grouping.
Import CommandBar.

Lemma addTo_keys acc cmd :
  map fst (addTo acc cmd)
  = if existsb (String.eqb (category cmd)) (map fst acc)
    then map fst acc
    else (map fst acc ++ [category cmd])%list.
Proof.
  induction acc as [|[k cs] acc IH]; [reflexivity|].
  cbn [addTo map fst existsb].
  rewrite (String.eqb_sym (category cmd) k).
  destruct (String.eqb k (category cmd)); cbn [orb map fst]; [reflexivity|].
  rewrite IH. destruct (existsb _ _); reflexivity.
Qed.

Lemma existsb_key k ks : existsb (String.eqb k) ks = true <-> In k ks.
Proof.
  rewrite existsb_exists. split.
  - intros [x [Hx E]]. apply String.eqb_eq in E. subst x. exact Hx.
  - intros H. exists k. split; [exact H | apply String.eqb_refl].
Qed.

Lemma addTo_entries acc cmd : forall k cs,
  NoDup (map fst acc) ->
  In (k, cs) (addTo acc cmd) ->
  (k <> category cmd /\ In (k, cs) acc) \/
  (k = category cmd /\
   ((exists cs0, In (k, cs0) acc /\ cs = (cs0 ++ [cmd])%list) \/
    (~ In k (map fst acc) /\ cs = [cmd]))).
Proof.
  induction acc as [|[k0 cs0] acc IH]; intros k cs Hnd Hin.
  - cbn in Hin. destruct Hin as [E|[]]. injection E as <- <-.
    right. split; [reflexivity|]. right. split; [intros [] | reflexivity].
  - cbn [addTo] in Hin. cbn [map fst] in Hnd. inversion Hnd as [|? ? Hk0 Hnd']; subst.
    destruct (String.eqb_spec k0 (category cmd)) as [E|E].
    + destruct Hin as [Hin|Hin].
      * injection Hin as <- <-. right. split; [exact E|]. left.
        exists cs0. split; [left; reflexivity | reflexivity].
      * left. split; [|right; exact Hin].
        intros ->. apply Hk0. rewrite E.
        apply in_map_iff. exists (category cmd, cs). split; [reflexivity | exact Hin].
    + destruct Hin as [Hin|Hin].
      * injection Hin as <- <-. left. split; [exact E | left; reflexivity].
      * destruct (IH k cs Hnd' Hin) as [[H1 H2]|[H1 [[c1 [H2 H3]]|[H2 H3]]]].
        -- left. split; [exact H1 | right; exact H2].
        -- right. split; [exact H1|]. left. exists c1. split; [right; exact H2 | exact H3].
        -- right. split; [exact H1|]. right. split; [|exact H3].
           cbn [map fst]. intros [H|H]; [subst; contradiction | contradiction].
Qed.

Lemma addTo_groupsOf done acc cmd :
  groupsOf done acc -> groupsOf (done ++ [cmd]) (addTo acc cmd).
Proof.
  intros (Hnd & Hcs & Hcov). split; [|split].
  - rewrite addTo_keys.
    destruct (existsb _ _) eqn:E; [exact Hnd|].
    assert (Hnot : ~ In (category cmd) (map fst acc)).
    { intros H. apply existsb_key in H. congruence. }
    apply NoDup_rev in Hnd. rewrite <- (rev_involutive (_ ++ _)).
    apply NoDup_rev. rewrite rev_app_distr. cbn [rev app].
    constructor; [rewrite <- in_rev; exact Hnot | exact Hnd].
  - intros k cs Hin. rewrite filter_app. cbn [filter]. unfold inCategory at 2.
    destruct (addTo_entries acc cmd k cs Hnd Hin)
      as [[H1 H2]|[H1 [[c0 [H2 H3]]|[H2 H3]]]].
    + destruct (Hcs k cs H2) as [Hne Heq].
      destruct (String.eqb_spec (category cmd) k) as [E|_]; [congruence|].
      rewrite app_nil_r. split; assumption.
    + destruct (Hcs k c0 H2) as [_ Heq]. subst k.
      rewrite String.eqb_refl, <- Heq, H3.
      split; [destruct c0; discriminate | reflexivity].
    + subst k cs. rewrite String.eqb_refl.
      assert (E : filter (inCategory (category cmd)) done = []).
      { destruct (filter (inCategory (category cmd)) done) as [|c l] eqn:F;
          [reflexivity|].
        exfalso. assert (Hc : In c (filter (inCategory (category cmd)) done))
          by (rewrite F; left; reflexivity).
        apply filter_In in Hc. destruct Hc as [Hc1 Hc2].
        unfold inCategory in Hc2. apply String.eqb_eq in Hc2.
        apply H2. rewrite <- Hc2. apply Hcov. exact Hc1. }
      rewrite E. split; [discriminate | reflexivity].
  - intros c Hin. rewrite addTo_keys. apply in_app_or in Hin.
    destruct (existsb _ _) eqn:E.
    + destruct Hin as [Hin|[<-|[]]]; [apply Hcov; exact Hin|].
      apply existsb_key. exact E.
    + apply in_or_app. destruct Hin as [Hin|[<-|[]]].
      * left. apply Hcov. exact Hin.
      * right. left. reflexivity.
Qed.

Lemma groupBy_groupsOf cmds : groupsOf cmds (groupBy cmds).
Proof.
  unfold groupBy.
  assert (G : forall xs done acc,
             groupsOf done acc -> groupsOf (done ++ xs) (fold_left addTo xs acc)).
  { induction xs as [|c xs IH]; intros done acc H.
    - rewrite app_nil_r. exact H.
    - cbn [fold_left].
      replace (done ++ c :: xs)%list with ((done ++ [c]) ++ xs)%list
        by (rewrite <- app_assoc; reflexivity).
      apply IH, addTo_groupsOf, H. }
  apply (G cmds [] []). split; [constructor|]. split; [intros k cs []|intros c []].
Qed.

End Grouping.

(** X20. Whatever case mapping [toLowerCase] is, the palette lists
    every filtered command exactly where it belongs: the group keys are
    distinct, no group is empty, a group holds the filtered commands of its
    category in their order, and every filtered command's category has a
    group.  With a blank query all commands are listed, under Navigate,
    Agent and System in that order. *)
Theorem grouped_partitions_filtered
  (toLowerCase : string -> string) (r : CommandBar.State) :
  let g := CommandBar.grouped toLowerCase r in
  let shown := CommandBar.filtered toLowerCase r in
  NoDup (map fst g) /\
  (forall k cs, In (k, cs) g ->
     cs <> [] /\
     cs = filter (fun c => String.eqb (CommandBar.category c) k) shown) /\
  (forall c, In c shown -> In (CommandBar.category c) (map fst g)) /\
  (forall c, In c shown -> In c (CommandBar.COMMANDS r)) /\
  (Js.trim (CommandBar.query r) = "" ->
   map (fun kc => (fst kc, map CommandBar.id (snd kc))) g
   = [("Navigate", ["chat"; "projects"; "research"; "career"; "code"; "telegram";
                    "settings"]);
      ("Agent", ["brief"; "focus"; "skill-gap"; "github-sync"; "review"; "research-q"]);
      ("System", ["clear-chat"])]).
Proof.
  cbv zeta. unfold CommandBar.grouped.
  destruct (groupBy_groupsOf (CommandBar.filtered toLowerCase r)) as (A & B & C).
  split; [exact A|]. split; [exact B|]. split; [exact C|]. split.
  - intros c H. unfold CommandBar.filtered in H.
    destruct (String.eqb (Js.trim (CommandBar.query r)) ""); [exact H|].
    apply filter_In in H. exact (proj1 H).
  - intros H. unfold CommandBar.filtered. rewrite H. reflexivity.
Qed.

Lemma quickAsk_toggles (w : World) (r : CommandBar.State) (msg : string)
  (x : Run CommandBar.State) :
  snd (exec w (CommandBar.quickAsk r msg) x) = Normal /\
  commandBarOpen (CommandBar.store (state (fst (exec w (CommandBar.quickAsk r msg) x))))
  = negb (commandBarOpen (CommandBar.store (state x))).
Proof.
  unfold CommandBar.quickAsk. cbn [exec state calls drawn].
  destruct (answer w (List.length (calls x))
              (sendChat msg (sessionId (CommandBar.store r)))) as [data|];
    [destruct (Js.falsy (sessionId (CommandBar.store r)))|];
    cbn -[replace_last]; split; reflexivity.
Qed.



(** X22. Whatever case mapping [toLowerCase] is, every command of the
    palette, run by a click or by Enter on the first match, completes
    without throwing and flips [commandBarOpen] exactly once, so an open
    palette is closed; Enter with no match does nothing. *)
Theorem commands_close_palette
  (toLowerCase : string -> string) (w : World) (r : CommandBar.State)
  (x : Run CommandBar.State) :
  (forall c, In c (CommandBar.COMMANDS r) ->
     let out := exec w (CommandBar.action c) x in
     snd out = Normal /\
     commandBarOpen (CommandBar.store (state (fst out)))
     = negb (commandBarOpen (CommandBar.store (state x)))) /\
  (CommandBar.filtered toLowerCase r = [] ->
   exec w (CommandBar.onEnter toLowerCase r) x = (x, Normal)) /\
  (CommandBar.filtered toLowerCase r <> [] ->
   let out := exec w (CommandBar.onEnter toLowerCase r) x in
   snd out = Normal /\
   commandBarOpen (CommandBar.store (state (fst out)))
   = negb (commandBarOpen (CommandBar.store (state x)))).
Proof.
  assert (A : forall c, In c (CommandBar.COMMANDS r) ->
             snd (exec w (CommandBar.action c) x) = Normal /\
             commandBarOpen (CommandBar.store (state (fst (exec w (CommandBar.action c) x))))
             = negb (commandBarOpen (CommandBar.store (state x)))).
  { intros c H. unfold CommandBar.COMMANDS in H.
    repeat (destruct H as [<-|H];
            [first [ split; reflexivity
                   | cbn [CommandBar.action];
                     match goal with
                     | |- context [CommandBar.quickAsk r ?m] =>
                         destruct (quickAsk_toggles w r m x) as (Q1 & Q2)
                     end;
                     split; [exact Q1 | exact Q2] ]|]).
    destruct H. }
  split; [exact A|]. split.
  - intros E. unfold CommandBar.onEnter. rewrite E. reflexivity.
  - intros Hne. cbv zeta. unfold CommandBar.onEnter.
    destruct (CommandBar.filtered toLowerCase r) as [|c cs] eqn:E; [contradiction|].
    apply A.
    assert (Hin : In c (CommandBar.filtered toLowerCase r))
      by (rewrite E; left; reflexivity).
    unfold CommandBar.filtered in Hin.
    destruct (String.eqb (Js.trim (CommandBar.query r)) ""); [exact Hin|].
    apply filter_In in Hin. exact (proj1 Hin).
Qed.


(* ================================================================== *)
(** * The telegram view *)



(* ================================================================== *)
(** * Creating, connecting, sending and the health poll *)



(** X27. [sendMsg] does nothing when the text is empty or the token or
    the chat id is missing.  Otherwise the bot's message is appended
    before the call is made and stays whether the call resolves or is
    rejected; a rejection only adds a "Send Failed" notification, and
    nothing is thrown. *)
Theorem sendMsg_is_optimistic
  (w : Backend.Env) (r : TelegramPanel.State) (text : option string)
  (x : Backend.Run TelegramPanel.State) :
  let msg := Js.or_else text (Js.trim (TelegramPanel.composing r)) in
  let out := Handler.exec w (TelegramPanel.sendMsg r text) x in
  let request :=
    Backend.sendTelegramMessage (TelegramPanel.token r) (TelegramPanel.chatId r) msg in
  let sent :=
    (TelegramView.messages (TelegramPanel.view (Handler.state x))
     ++ [TelegramMessage.mk (Handler.now w (Handler.drawn x)) "NEXUS Bot" msg
           (Handler.now w (S (Handler.drawn x))) true])%list in
  (msg = "" \/ TelegramPanel.token r = "" \/ TelegramPanel.chatId r = "" ->
   out = (x, Returned)) /\
  (msg <> "" -> TelegramPanel.token r <> "" -> TelegramPanel.chatId r <> "" ->
   snd out = Normal /\
   (exists pending,
      Handler.calls (fst out) = (Handler.calls x ++ [(request, pending)])%list /\
      TelegramView.messages (TelegramPanel.view pending) = sent) /\
   TelegramView.messages (TelegramPanel.view (Handler.state (fst out))) = sent /\
   TelegramPanel.composing (Handler.state (fst out)) = "" /\
   notifications (TelegramView.store (TelegramPanel.view (Handler.state (fst out))))
   = match Handler.settle w (List.length (Handler.calls x)) request with
     | Resolved _ =>
         notifications (TelegramView.store (TelegramPanel.view (Handler.state x)))
     | Rejected =>
         firstn 50
           (Notification.mk (Handler.newId w (S (S (Handler.drawn x)))) NotifType.error
              "Send Failed" "Could not send Telegram message" None
              (Handler.now w (S (S (Handler.drawn x)))) false None
            :: notifications (TelegramView.store (TelegramPanel.view (Handler.state x))))
     end).
Proof.
  cbv zeta. unfold TelegramPanel.sendMsg. split.
  - intros [H|[H|H]]; rewrite H; rewrite ?orb_true_r; reflexivity.
  - intros Hm Ht Hc. apply String.eqb_neq in Hm, Ht, Hc. rewrite Hm, Ht, Hc.
    cbn [orb Handler.exec Handler.state Handler.calls Handler.drawn].
    destruct (Handler.settle w (List.length (Handler.calls x))
                (Backend.sendTelegramMessage (TelegramPanel.token r)
                   (TelegramPanel.chatId r)
                   (Js.or_else text (Js.trim (TelegramPanel.composing r))))) as [u|];
      cbn -[firstn];
      (split; [reflexivity|]); (split; [eexists; split; reflexivity|]);
      repeat split.
Qed.

(** X28. [connectBot] does nothing without a token.  Otherwise it never
    throws and ends with [isConnecting] false; only a reply with [ok]
    marks the bot connected, records the bot and restarts the polling
    with the cursor at 0; a reply without [ok] or a failed call leaves the
    connected flag, the bot and the polling state as they were and pushes
    one error notification. *)
Theorem connectBot_connects_only_on_ok
  (w : Backend.Env) (r : TelegramPanel.State) (x : Backend.Run TelegramPanel.State) :
  let out := Handler.exec w (TelegramPanel.connectBot r) x in
  let v := TelegramPanel.view (Handler.state (fst out)) in
  let v0 := TelegramPanel.view (Handler.state x) in
  (TelegramPanel.token r = "" -> out = (x, Returned)) /\
  (TelegramPanel.token r <> "" ->
   snd out = Normal /\
   TelegramPanel.isConnecting (Handler.state (fst out)) = false /\
   TelegramView.messages v = TelegramView.messages v0 /\
   match Handler.settle w (List.length (Handler.calls x))
           (Backend.getMe (TelegramPanel.token r)) with
   | Resolved (Backend.mkBotReply true username first_name) =>
       telegramConnected (TelegramView.store v) = true /\
       TelegramPanel.botInfo (Handler.state (fst out)) = Some (username, first_name) /\
       TelegramView.pollActive v = true /\
       TelegramView.offset v = 0
   | _ =>
       telegramConnected (TelegramView.store v) = telegramConnected (TelegramView.store v0) /\
       TelegramPanel.botInfo (Handler.state (fst out))
       = TelegramPanel.botInfo (Handler.state x) /\
       TelegramView.pollActive v = TelegramView.pollActive v0 /\
       TelegramView.offset v = TelegramView.offset v0 /\
       exists e,
         notifications (TelegramView.store v)
         = firstn 50 (e :: notifications (TelegramView.store v0)) /\
         Notification.type e = NotifType.error /\
         Notification.title e = "Telegram Error"
   end).
Proof.
  cbv zeta. unfold TelegramPanel.connectBot. split.
  - intros ->. reflexivity.
  - intros Ht. apply String.eqb_neq in Ht. rewrite Ht.
    cbn [Handler.exec Handler.state Handler.calls Handler.drawn].
    destruct (Handler.settle w (List.length (Handler.calls x))
                (Backend.getMe (TelegramPanel.token r))) as [[[] u f]|];
      cbn -[firstn]; repeat split; eexists; repeat split.
Qed.

(** The health poll never throws and changes nothing but
    [ollamaOnline], which it sets to true exactly when the health call
    resolved and reported the model runtime as "connected"; a failed call
    means offline. *)
Lemma health_poll_sets_online (w : Backend.Env) (x : Backend.Run NexusState) :
  let out := Handler.exec w App.poll x in
  snd out = Normal /\
  Handler.state (fst out)
  = set_ollamaOnline
      (match Handler.settle w (List.length (Handler.calls x)) Backend.checkHealth with
       | Resolved ollama => String.eqb ollama "connected"
       | Rejected => false
       end)
      (Handler.state x).
Proof.
  cbv zeta. unfold App.poll. cbn [Handler.exec].
  destruct (Handler.settle w (List.length (Handler.calls x)) Backend.checkHealth);
    cbn; split; reflexivity.
Qed.

(* ================================================================== *)
(** * Rendering a reply *)

Section Rendering.
Import ChatView.

Variables stripBold formatInline : string -> string.

Lemma scan_in_block (lang : string) (body : list string) :
  forallb (fun l => negb (isFence l)) body = true ->
  forall code,
  (forall close post, isFence close = true ->
     scan stripBold formatInline (body ++ close :: post) (Some (lang, code))
     = CodeBlock lang (joinLines (code ++ body))
       :: scan stripBold formatInline post None) /\
  scan stripBold formatInline body (Some (lang, code))
  = [CodeBlock lang (joinLines (code ++ body))].
Proof.
  induction body as [|l body IH]; intros Hb code.
  - rewrite app_nil_r. split; [|reflexivity].
    intros close post Hc. cbn [app scan]. rewrite Hc. reflexivity.
  - cbn [forallb] in Hb. apply andb_prop in Hb. destruct Hb as [Hl Hb].
    apply negb_true_iff in Hl.
    destruct (IH Hb (code ++ [l])%list) as [A B].
    replace (code ++ l :: body)%list with ((code ++ [l]) ++ body)%list
      by (rewrite <- app_assoc; reflexivity).
    split.
    + intros close post Hc. cbn [app scan]. rewrite Hl. apply A. exact Hc.
    + cbn [scan]. rewrite Hl. exact B.
Qed.

Lemma scan_length (lines : list string) : forall block,
  (List.length (scan stripBold formatInline lines block)
   <= List.length lines + match block with Some _ => 1 | None => 0 end)%nat.
Proof.
  induction lines as [|l lines IH]; intros [[lang code]|]; cbn [scan List.length];
    try lia.
  - pose proof (IH None) as H1.
    pose proof (IH (Some (lang, (code ++ [l])%list))) as H2.
    cbn beta iota in H1, H2.
    destruct (isFence l); cbn [List.length]; lia.
  - pose proof (IH None) as H1.
    pose proof (IH (Some (Js.trim (JsText.drop 3 l), []))) as H2.
    cbn beta iota in H1, H2.
    destruct (isFence l); cbn [List.length]; lia.
Qed.

End Rendering.

(** X29. [renderContent] returns null for the empty text only.  A text
    none of whose lines starts with three back-quotes is rendered line by
    line, one element per line in order; in general there are never more
    elements than lines. *)
Theorem renderContent_line_by_line
  (stripBold formatInline : string -> string) (text : string) :
  (ChatView.renderContent stripBold formatInline text = None <-> text = "") /\
  (forall els, ChatView.renderContent stripBold formatInline text = Some els ->
     (List.length els <= List.length (ChatView.splitLines text))%nat) /\
  (text <> "" ->
   forallb (fun l => negb (ChatView.isFence l)) (ChatView.splitLines text) = true ->
   ChatView.renderContent stripBold formatInline text
   = Some (map (ChatView.renderLine stripBold formatInline) (ChatView.splitLines text))).
Proof.
  unfold ChatView.renderContent. split; [|split].
  - destruct (String.eqb_spec text ""); split; intros H;
      try reflexivity; try assumption; try discriminate; contradiction.
  - intros els H. destruct (String.eqb text ""); [discriminate|].
    injection H as <-.
    pose proof (scan_length stripBold formatInline (ChatView.splitLines text) None)
      as Hlen.
    cbn beta iota in Hlen. lia.
  - intros Hne Hplain. apply String.eqb_neq in Hne. rewrite Hne. f_equal.
    induction (ChatView.splitLines text) as [|l ls IH]; [reflexivity|].
    cbn [forallb] in Hplain. apply andb_prop in Hplain. destruct Hplain as [Hl Hls].
    apply negb_true_iff in Hl. cbn [ChatView.scan map]. rewrite Hl.
    f_equal. apply IH. exact Hls.
Qed.

(** X30. A line that starts with three back-quotes opens a code block
    whose language is the trimmed rest of that line.  The lines up to the
    next such line are taken verbatim, whatever they look like, and that
    closing line is dropped entirely; when no closing line follows, the
    block takes every remaining line. *)
Theorem renderContent_code_fences
  (stripBold formatInline : string -> string)
  (opening : string) (body : list string) :
  ChatView.isFence opening = true ->
  forallb (fun l => negb (ChatView.isFence l)) body = true ->
  let block :=
    ChatView.CodeBlock (Js.trim (JsText.drop 3 opening)) (ChatView.joinLines body) in
  (forall closing post, ChatView.isFence closing = true ->
     ChatView.scan stripBold formatInline (opening :: body ++ closing :: post) None
     = block :: ChatView.scan stripBold formatInline post None) /\
  ChatView.scan stripBold formatInline (opening :: body) None = [block].
Proof.
  intros Ho Hb. cbv zeta.
  destruct (scan_in_block stripBold formatInline
              (Js.trim (JsText.drop 3 opening)) body Hb []) as [A B].
  split.
  - intros closing post Hc. cbn [ChatView.scan]. rewrite Ho. apply A. exact Hc.
  - cbn [ChatView.scan]. rewrite Ho. exact B.
Qed.

(* ================================================================== *)
(** * The further theorems at concrete inputs *)

Lemma markAllRead_settles_witness :
  In (Notification.mk "02" NotifType.info "Build" "finished" None 2 true None)
     (notifications (markAllRead after3)) /\
  Notification.read (Notification.mk "02" NotifType.info "Build" "finished" None 2 true None)
  = true /\
  Toast.recent (markAllRead after3) = [].
Proof.
  assert (H : In (Notification.mk "02" NotifType.info "Build" "finished" None 2 true None)
                 (notifications (markAllRead after3)))
    by (vm_compute; left; reflexivity).
  split; [exact H|].
  destruct (markAllRead_settles after3) as (_ & _ & A & _ & _ & B & _ & _).
  split; [exact (A _ H) | exact B].
Defined.

Lemma unreadCount_never_undercounts_witness :
  In (Notification.create (sampleInput 50) "50" 50)
     (notifications (reached (samplePushes 51))) /\
  Sidebar.badge (unreadCount (reached (samplePushes 51))) <> None.
Proof.
  assert (H : In (Notification.create (sampleInput 50) "50" 50)
                 (notifications (reached (samplePushes 51))))
    by (vm_compute; left; reflexivity).
  split; [exact H|].
  exact (proj2 (proj2 (unreadCount_never_undercounts (samplePushes 51))) _ H eq_refl).
Defined.

Lemma read_flag_never_reset_witness :
  In (Notification.create (sampleInput 3) "03" 3)
     (notifications (applyOp after3 (Push (sampleInput 3) "03" 3))) /\
  (In (Notification.create (sampleInput 3) "03" 3) (notifications after3) \/
   exists n u t, Push (sampleInput 3) "03" 3 = Push n u t /\
                 Notification.create (sampleInput 3) "03" 3 = Notification.create n u t).
Proof.
  assert (H : In (Notification.create (sampleInput 3) "03" 3)
                 (notifications (applyOp after3 (Push (sampleInput 3) "03" 3))))
    by (vm_compute; left; reflexivity).
  split; [exact H|].
  exact (read_flag_never_reset after3 (Push (sampleInput 3) "03" 3) _ H eq_refl).
Defined.

Lemma push_then_dismiss_witness :
  (forall m, In m (notifications after3) -> Notification.id m <> "zz") /\
  notifications (dismissNotification "zz" (pushNotification (sampleInput 9) "zz" 9 after3))
  = notifications after3.
Proof.
  assert (H : forall m, In m (notifications after3) -> Notification.id m <> "zz").
  { intros m Hm. vm_compute in Hm.
    destruct Hm as [<-|[<-|[<-|[]]]]; simpl; discriminate. }
  split; [exact H|].
  refine (proj2 (proj2 (push_then_dismiss after3 (sampleInput 9) "zz" 9 H)) _).
  vm_compute. lia.
Defined.

Lemma updateSettings_merges_witness :
  SettingsPatch.notifDesktop
    (SettingsPatch.mk None None None None None None None None (Some false))
  = Some false /\
  desktopNotification true true (sampleInput 0)
    (updateSettings
       (SettingsPatch.mk None None None None None None None None (Some false))
       initialState)
  = None.
Proof.
  split; [reflexivity|].
  exact (proj2 (proj2 (updateSettings_merges
                         (SettingsPatch.mk None None None None None None None None
                            (Some false))
                         SettingsPatch.empty initialState))
           eq_refl true true (sampleInput 0)).
Defined.

Lemma toast_view_shows_newest_witness :
  In (Notification.create (sampleInput 2) "02" 2) (Toast.recent after3) /\
  In (Notification.create (sampleInput 2) "02" 2) (notifications after3) /\
  Notification.read (Notification.create (sampleInput 2) "02" 2) = false.
Proof.
  assert (H : In (Notification.create (sampleInput 2) "02" 2) (Toast.recent after3))
    by (vm_compute; left; reflexivity).
  split; [exact H|].
  exact (proj1 (proj2 (toast_view_shows_newest after3)) _ H).
Defined.

Lemma toast_events_contained_witness :
  forallb (fun e => negb (ToastLife.startsExit e))
    [Toast.GraceElapsed; Toast.GraceElapsed] = true /\
  Toast.store
    (ToastLife.after (Notification.create (sampleInput 2) "02" 2)
       [Toast.GraceElapsed; Toast.GraceElapsed] (Toast.mount after3))
  = after3 /\
  In (Notification.create (sampleInput 1) "01" 1)
     (notifications
        (Toast.store
           (ToastLife.after (Notification.create (sampleInput 2) "02" 2)
              [Toast.CloseClicked; Toast.TimerElapsed; Toast.GraceElapsed;
               Toast.GraceElapsed]
              (Toast.mount after3)))).
Proof.
  split; [reflexivity|]. split.
  - exact (proj2 (proj2 (toast_events_contained
                           (Notification.create (sampleInput 2) "02" 2)
                           [Toast.GraceElapsed; Toast.GraceElapsed] after3)) eq_refl).
  - refine (proj1 (proj2 (toast_events_contained
                            (Notification.create (sampleInput 2) "02" 2)
                            [Toast.CloseClicked; Toast.TimerElapsed; Toast.GraceElapsed;
                             Toast.GraceElapsed] after3))
              (Notification.create (sampleInput 1) "01" 1) _ _).
    + vm_compute. right. left. reflexivity.
    + simpl. discriminate.
Defined.

Lemma timeAgo_ranges_witness :
  3600 <= (7260000 - 0) / 1000 < 86400 /\
  NotificationPanel.timeAgo 7260000 0 = "2h ago" /\
  0 <= 5000 /\
  NotificationPanel.timeAgo 0 5000 = "just now".
Proof.
  assert (H1 : 3600 <= (7260000 - 0) / 1000 < 86400)
    by (vm_compute; split; [discriminate | reflexivity]).
  assert (H2 : 0 <= 5000) by lia.
  destruct (timeAgo_ranges 7260000 0) as (_ & _ & _ & A & _).
  destruct (timeAgo_ranges 0 5000) as (_ & B & _).
  split; [exact H1|]. split; [rewrite (proj1 (A H1)); reflexivity|].
  split; [exact H2 | exact (B H2)].
Defined.

Lemma board_columns_partition_witness :
  Board.hasColumn Sample2.t3 = false /\
  ~ In Sample2.t3 (Board.shown [Sample.t1; Sample2.t3; Sample.t2]) /\
  Board.shown [Sample.t1; Sample2.t3; Sample.t2] = [Sample.t1; Sample.t2].
Proof.
  split; [reflexivity|]. split; [|reflexivity].
  exact (proj2 (proj2 (board_columns_partition [Sample.t1; Sample2.t3; Sample.t2]))
           Sample2.t3 eq_refl).
Defined.

Lemma restatus_moves_between_columns_witness :
  "todo" <> "done" /\
  Board.tasksByStatus (ProjectsView.restatus "t1" "done" [Sample.t1; Sample.t2]) "todo"
  = [] /\
  (forall t, In t [Sample.t1; Sample.t2] -> Task.id t <> "t7") /\
  ProjectsView.restatus "t7" "done" [Sample.t1; Sample.t2] = [Sample.t1; Sample.t2].
Proof.
  assert (H1 : "todo" <> "done") by discriminate.
  assert (H2 : forall t, In t [Sample.t1; Sample.t2] -> Task.id t <> "t7").
  { intros t [<-|[<-|[]]]; simpl; discriminate. }
  destruct (restatus_moves_between_columns "t1" "done" [Sample.t1; Sample.t2])
    as (_ & _ & A & _).
  destruct (restatus_moves_between_columns "t7" "done" [Sample.t1; Sample.t2])
    as (_ & _ & _ & B).
  split; [exact H1|]. split; [rewrite (A "todo" H1); reflexivity|].
  split; [exact H2 | exact (B H2)].
Defined.

Lemma loadProjects_failure_reported_witness :
  answer Sample.offline 0 getProjects = Rejected /\
  projects (ProjectsView.store
              (state (fst (exec Sample.offline (ProjectsView.loadProjects Sample.board)
                             (start Sample.board)))))
  = [Sample.apollo; Sample.gemini] /\
  ProjectsView.loading
    (state (fst (exec Sample.offline (ProjectsView.loadProjects Sample.board)
                   (start Sample.board)))) = false.
Proof.
  assert (H : answer Sample.offline (List.length (calls (start Sample.board))) getProjects
              = Rejected) by reflexivity.
  split; [exact H|].
  destruct (loadProjects_failure_reported Sample.offline Sample.board
              (start Sample.board) H) as (_ & _ & A & _ & B & _).
  split; [exact A | exact B].
Defined.

Lemma loadProjects_keeps_selection_witness :
  activeProjectId (ProjectsView.store Sample2.selected) = Some "gone" /\
  "gone" <> "" /\
  activeProjectId
    (ProjectsView.store
       (state (fst (exec Sample.online (ProjectsView.loadProjects Sample2.selected)
                      (start Sample2.selected)))))
  = Some "gone" /\
  projects
    (ProjectsView.store
       (state (fst (exec Sample.online (ProjectsView.loadProjects Sample2.selected)
                      (start Sample2.selected)))))
  = [Sample.apollo; Sample.gemini].
Proof.
  assert (H1 : activeProjectId (ProjectsView.store Sample2.selected) = Some "gone")
    by reflexivity.
  assert (H2 : "gone" <> "") by discriminate.
  split; [exact H1|]. split; [exact H2|].
  destruct (loadProjects_keeps_selection Sample.online Sample2.selected
              (start Sample2.selected) "gone" [Sample.apollo; Sample.gemini]
              H1 H2 eq_refl) as (_ & A & B & _).
  split; [exact B | exact A].
Defined.

Lemma handleDeleteProject_deletes_witness :
  ProjectsView.deleteConfirmationName Sample.boardTypedExact = Project.name Sample.apollo /\
  answer Sample.online 0 fetchDebugProject <> Resolved 404 /\
  projects
    (ProjectsView.store
       (state (fst (exec Sample.online
                      (ProjectsView.handleDeleteProject Sample.boardTypedExact)
                      (start Sample.boardTypedExact)))))
  = [Sample.gemini] /\
  activeProjectId
    (ProjectsView.store
       (state (fst (exec Sample.online
                      (ProjectsView.handleDeleteProject Sample.boardTypedExact)
                      (start Sample.boardTypedExact)))))
  = Some "p2".
Proof.
  assert (H1 : ProjectsView.deleteConfirmationName Sample.boardTypedExact
               = Project.name Sample.apollo) by reflexivity.
  assert (H2 : answer Sample.online 0 fetchDebugProject <> Resolved 404)
    by (simpl; discriminate).
  assert (H3 : "p1" <> "") by discriminate.
  split; [exact H1|]. split; [exact H2|].
  destruct (handleDeleteProject_deletes Sample.online Sample.boardTypedExact
              Sample.boardTypedExact Sample.apollo "p1" eq_refl H3 eq_refl H1 H2 eq_refl)
    as (_ & _ & A & _ & B & _).
  split; [exact A | exact B].
Defined.

Lemma handleDeleteProject_failure_keeps_witness :
  answer Sample2.staleBackend 0 fetchDebugProject = Resolved 404 /\
  requests (fst (exec Sample2.staleBackend
                   (ProjectsView.handleDeleteProject Sample.boardTypedExact)
                   (start Sample.boardTypedExact)))
  = [fetchDebugProject] /\
  projects
    (ProjectsView.store
       (state (fst (exec Sample2.staleBackend
                      (ProjectsView.handleDeleteProject Sample.boardTypedExact)
                      (start Sample.boardTypedExact)))))
  = [Sample.apollo; Sample.gemini].
Proof.
  assert (H : answer Sample2.staleBackend 0 fetchDebugProject = Resolved 404)
    by reflexivity.
  assert (H3 : "p1" <> "") by discriminate.
  split; [exact H|].
  destruct (handleDeleteProject_failure_keeps Sample2.staleBackend Sample.boardTypedExact
              Sample.boardTypedExact Sample.apollo "p1" eq_refl H3 eq_refl eq_refl
              (or_introl H))
    as (_ & A & _ & _ & _ & _ & B).
  split; [exact (B H) | exact A].
Defined.

Lemma submit_guard_blocks_witness :
  Js.trim (Js.or_else None (ChatInput.value (ChatInput.mkSt initialState "   "))) = "" /\
  exec Sample.online (ChatInput.submit (ChatInput.mkSt initialState "   ") None)
    (start (ChatInput.mkSt initialState "   "))
  = (start (ChatInput.mkSt initialState "   "), Returned) /\
  Js.trim (Js.or_else None (ChatInput.value (ChatInput.mkSt initialState Sample2.nbsp)))
  = "" /\
  exec Sample.online (ChatInput.submit (ChatInput.mkSt initialState Sample2.nbsp) None)
    (start (ChatInput.mkSt initialState Sample2.nbsp))
  = (start (ChatInput.mkSt initialState Sample2.nbsp), Returned).
Proof.
  assert (H : Js.trim (Js.or_else None (ChatInput.value (ChatInput.mkSt initialState "   ")))
              = "") by reflexivity.
  assert (H' : Js.trim (Js.or_else None
                          (ChatInput.value (ChatInput.mkSt initialState Sample2.nbsp)))
               = "") by reflexivity.
  split; [exact H|]. split.
  - exact (submit_guard_blocks Sample.online (ChatInput.mkSt initialState "   ") None
             (start (ChatInput.mkSt initialState "   ")) (or_introl H)).
  - split; [exact H'|].
    exact (submit_guard_blocks Sample.online (ChatInput.mkSt initialState Sample2.nbsp)
             None (start (ChatInput.mkSt initialState Sample2.nbsp)) (or_introl H')).
Defined.

Lemma submit_success_adopts_session_witness :
  Js.trim (Js.or_else None (ChatInput.value Sample.typedHello)) <> "" /\
  isLoading (ChatInput.store Sample.typedHello) = false /\
  sessionId
    (ChatInput.store
       (state (fst (exec Sample.online (ChatInput.submit Sample.typedHello None)
                      (start Sample.typedHello)))))
  = Some "sess-1".
Proof.
  assert (H1 : Js.trim (Js.or_else None (ChatInput.value Sample.typedHello)) <> "")
    by (vm_compute; discriminate).
  assert (H2 : isLoading (ChatInput.store Sample.typedHello) = false) by reflexivity.
  split; [exact H1|]. split; [exact H2|].
  exact (proj1 (submit_success_adopts_session Sample.online Sample.typedHello None
                  (start Sample.typedHello)
                  (ChatData.mk "echo hello" ATLAS "sess-1") H1 H2 eq_refl)).
Defined.

Lemma grouped_partitions_filtered_witness :
  Js.trim (CommandBar.query Sample2.paletteBlank) = "" /\
  map fst (CommandBar.grouped Sample2.lowerAscii Sample2.paletteBlank)
  = ["Navigate"; "Agent"; "System"] /\
  List.length (CommandBar.filtered Sample2.lowerAscii Sample2.paletteBlank) = 14%nat /\
  Js.trim (CommandBar.query Sample2.paletteNbsp) = "" /\
  List.length (CommandBar.filtered Sample2.lowerAscii Sample2.paletteNbsp) = 14%nat /\
  map (fun kc => (fst kc, map CommandBar.id (snd kc)))
      (CommandBar.grouped Sample2.lowerAscii Sample2.paletteForge)
  = [("Navigate", ["code"]); ("Agent", ["review"])].
Proof.
  assert (H : Js.trim (CommandBar.query Sample2.paletteBlank) = "") by reflexivity.
  assert (H' : Js.trim (CommandBar.query Sample2.paletteNbsp) = "") by reflexivity.
  split; [exact H|]. split; [|split; [reflexivity|split; [exact H'|]]].
  - pose proof (proj2 (proj2 (proj2 (proj2
                  (grouped_partitions_filtered Sample2.lowerAscii Sample2.paletteBlank))))
                  H) as G.
    apply (f_equal (map fst)) in G. rewrite map_map in G. exact G.
  - split; [|vm_compute; reflexivity].
    pose proof (proj2 (proj2 (proj2 (proj2
                  (grouped_partitions_filtered Sample2.lowerAscii Sample2.paletteNbsp))))
                  H') as G.
    apply (f_equal (fun g => List.length (List.concat (map snd g)))) in G.
    vm_compute in G. vm_compute. reflexivity.
Defined.

Lemma commands_close_palette_witness :
  CommandBar.filtered Sample2.lowerAscii Sample2.paletteNoMatch = [] /\
  exec Sample.online (CommandBar.onEnter Sample2.lowerAscii Sample2.paletteNoMatch)
    (start Sample2.paletteNoMatch)
  = (start Sample2.paletteNoMatch, Normal) /\
  CommandBar.filtered Sample2.lowerAscii Sample2.paletteBlank <> [] /\
  commandBarOpen
    (CommandBar.store
       (state (fst (exec Sample.online
                      (CommandBar.onEnter Sample2.lowerAscii Sample2.paletteBlank)
                      (start Sample2.paletteBlank)))))
  = true.
Proof.
  assert (H1 : CommandBar.filtered Sample2.lowerAscii Sample2.paletteNoMatch = [])
    by reflexivity.
  assert (H2 : CommandBar.filtered Sample2.lowerAscii Sample2.paletteBlank <> [])
    by (vm_compute; discriminate).
  split; [exact H1|]. split.
  - exact (proj1 (proj2 (commands_close_palette Sample2.lowerAscii Sample.online
                           Sample2.paletteNoMatch (start Sample2.paletteNoMatch))) H1).
  - split; [exact H2|].
    exact (proj2 (proj2 (proj2 (commands_close_palette Sample2.lowerAscii Sample.online
                                  Sample2.paletteBlank (start Sample2.paletteBlank))) H2)).
Defined.





Lemma sendMsg_is_optimistic_witness :
  Js.or_else None (Js.trim (TelegramPanel.composing Sample2.panel)) <> "" /\
  TelegramPanel.token Sample2.panel <> "" /\
  TelegramPanel.chatId Sample2.panel <> "" /\
  map TelegramMessage.text
    (TelegramView.messages
       (TelegramPanel.view
          (Handler.state
             (fst (Handler.exec Sample2.down (TelegramPanel.sendMsg Sample2.panel None)
                     (Handler.start Sample2.panel))))))
  = ["ping"] /\
  TelegramPanel.token Sample2.panelNoToken = "" /\
  Handler.exec Sample2.up (TelegramPanel.sendMsg Sample2.panelNoToken None)
    (Handler.start Sample2.panelNoToken)
  = (Handler.start Sample2.panelNoToken, Returned).
Proof.
  assert (H1 : Js.or_else None (Js.trim (TelegramPanel.composing Sample2.panel)) <> "")
    by (vm_compute; discriminate).
  assert (H2 : TelegramPanel.token Sample2.panel <> "") by (vm_compute; discriminate).
  assert (H3 : TelegramPanel.chatId Sample2.panel <> "") by (vm_compute; discriminate).
  assert (H4 : TelegramPanel.token Sample2.panelNoToken = "") by reflexivity.
  split; [exact H1|]. split; [exact H2|]. split; [exact H3|]. split.
  - destruct (proj2 (sendMsg_is_optimistic Sample2.down Sample2.panel None
                       (Handler.start Sample2.panel)) H1 H2 H3) as (_ & _ & A & _).
    rewrite A. reflexivity.
  - split; [exact H4|].
    exact (proj1 (sendMsg_is_optimistic Sample2.up Sample2.panelNoToken None
                    (Handler.start Sample2.panelNoToken)) (or_intror (or_introl H4))).
Defined.

Lemma connectBot_connects_only_on_ok_witness :
  TelegramPanel.token Sample2.panel <> "" /\
  TelegramPanel.isConnecting
    (Handler.state (fst (Handler.exec Sample2.up (TelegramPanel.connectBot Sample2.panel)
                           (Handler.start Sample2.panel)))) = false /\
  TelegramPanel.token Sample2.panelNoToken = "" /\
  Handler.exec Sample2.up (TelegramPanel.connectBot Sample2.panelNoToken)
    (Handler.start Sample2.panelNoToken)
  = (Handler.start Sample2.panelNoToken, Returned).
Proof.
  assert (H1 : TelegramPanel.token Sample2.panel <> "") by (vm_compute; discriminate).
  assert (H2 : TelegramPanel.token Sample2.panelNoToken = "") by reflexivity.
  split; [exact H1|]. split.
  - exact (proj1 (proj2 (proj2 (connectBot_connects_only_on_ok Sample2.up Sample2.panel
                                  (Handler.start Sample2.panel)) H1))).
  - split; [exact H2|].
    exact (proj1 (connectBot_connects_only_on_ok Sample2.up Sample2.panelNoToken
                    (Handler.start Sample2.panelNoToken)) H2).
Defined.

Lemma renderContent_line_by_line_witness :
  "## Plan" <> "" /\
  forallb (fun l => negb (ChatView.isFence l)) (ChatView.splitLines "## Plan") = true /\
  ChatView.renderContent (fun s => s) (fun s => s) "## Plan"
  = Some [ChatView.Heading2 "Plan"].
Proof.
  assert (H1 : "## Plan" <> "") by discriminate.
  assert (H2 : forallb (fun l => negb (ChatView.isFence l))
                 (ChatView.splitLines "## Plan") = true) by reflexivity.
  split; [exact H1|]. split; [exact H2|].
  rewrite (proj2 (proj2 (renderContent_line_by_line (fun s => s) (fun s => s) "## Plan"))
             H1 H2).
  reflexivity.
Defined.

Lemma renderContent_code_fences_witness :
  ChatView.isFence "```js" = true /\
  forallb (fun l => negb (ChatView.isFence l)) ["## x"; "- y"] = true /\
  ChatView.scan (fun s => s) (fun s => s) ["```js"; "## x"; "- y"; "``` end"; "tail"] None
  = [ChatView.CodeBlock "js" (ChatView.joinLines ["## x"; "- y"]);
     ChatView.Paragraph "tail"].
Proof.
  assert (H1 : ChatView.isFence "```js" = true) by reflexivity.
  assert (H2 : forallb (fun l => negb (ChatView.isFence l)) ["## x"; "- y"] = true)
    by reflexivity.
  split; [exact H1|]. split; [exact H2|].
  exact (proj1 (renderContent_code_fences (fun s => s) (fun s => s) "```js"
                  ["## x"; "- y"] H1 H2) "``` end" ["tail"] eq_refl).
Defined.
